(** * BR/EDR pairing state machine (bt-host, gap/pairing_state.cc)

    A shallow embedding of [bt::gap::PairingState] and of the pure decision
    functions that follow it in the same translation unit, together with the
    properties of the design document that are decided by that code.

    Conventions.
    - C++ scoped enumerations become inductive types inside a module of the
      enumeration's name ([State.kFailed], [HostError.kFailed]); the types of
      the namespaces [hci] and [sm] live in modules of those names.
    - A member function that mutates the object is a computation in the monad
      [M]: it reads and writes a [PairingState] record, appends to a trace of
      outward calls, and may abort (a failed [ZX_ASSERT], or the dereference
      of a null or unset member).
    - Callbacks are opaque to the translation unit.  They are represented by
      identities, and invoking one appends a record of the call to the trace.
    - Constants and tables that the file uses but that are declared in other
      headers (HCI event codes, link key types, the classification of a link
      key) are the fields of the class [HciConstants], over which the machine
      is parametric. *)

From Stdlib Require Import ZArith List Bool.
From Stdlib Require String.
Import String.StringSyntax.
Import ListNotations.
Open Scope Z_scope.

(** ** Enumerations *)

(** Modelled from the spec: [hci::IOCapability] is declared in
    hci/hci_constants.h; the capability set has exactly these four values. *)
Module IOCapability.
Inductive t : Type :=
  | kDisplayOnly
  | kDisplayYesNo
  | kKeyboardOnly
  | kNoInputNoOutput.

Definition eqb (a b : t) : bool :=
  match a, b with
  | kDisplayOnly, kDisplayOnly
  | kDisplayYesNo, kDisplayYesNo
  | kKeyboardOnly, kKeyboardOnly
  | kNoInputNoOutput, kNoInputNoOutput => true
  | _, _ => false
  end.
End IOCapability.

(** Modelled from the spec: [PairingAction] is declared in
    gap/pairing_state.h with these five enumerators. *)
Module PairingAction.
Inductive t : Type :=
  | kAutomatic
  | kDisplayPasskey
  | kComparePasskey
  | kRequestPasskey
  | kGetConsent.

Definition eqb (a b : t) : bool :=
  match a, b with
  | kAutomatic, kAutomatic
  | kDisplayPasskey, kDisplayPasskey
  | kComparePasskey, kComparePasskey
  | kRequestPasskey, kRequestPasskey
  | kGetConsent, kGetConsent => true
  | _, _ => false
  end.
End PairingAction.

(** [PairingState::State]; the twelve enumerators are those listed by
    [PairingState::ToString]. *)
Module State.
Inductive t : Type :=
  | kIdle
  | kInitiatorPairingStarted
  | kInitiatorWaitIoCapResponse
  | kResponderWaitIoCapRequest
  | kWaitUserConfirmationRequest
  | kWaitUserPasskeyRequest
  | kWaitUserPasskeyNotification
  | kWaitPairingComplete
  | kWaitLinkKey
  | kInitiatorWaitAuthComplete
  | kWaitEncryption
  | kFailed.

Definition eqb (a b : t) : bool :=
  match a, b with
  | kIdle, kIdle
  | kInitiatorPairingStarted, kInitiatorPairingStarted
  | kInitiatorWaitIoCapResponse, kInitiatorWaitIoCapResponse
  | kResponderWaitIoCapRequest, kResponderWaitIoCapRequest
  | kWaitUserConfirmationRequest, kWaitUserConfirmationRequest
  | kWaitUserPasskeyRequest, kWaitUserPasskeyRequest
  | kWaitUserPasskeyNotification, kWaitUserPasskeyNotification
  | kWaitPairingComplete, kWaitPairingComplete
  | kWaitLinkKey, kWaitLinkKey
  | kInitiatorWaitAuthComplete, kInitiatorWaitAuthComplete
  | kWaitEncryption, kWaitEncryption
  | kFailed, kFailed => true
  | _, _ => false
  end.
End State.

(** Modelled from the spec: [HostError] is declared in common/status.h; these
    are the five errors this translation unit raises. *)
Module HostError.
Inductive t : Type :=
  | kNotReady
  | kCanceled
  | kNotSupported
  | kFailed
  | kInsufficientSecurity.
End HostError.

(** [hci::AuthRequirements], the two values the file returns. *)
Module AuthRequirements.
Inductive t : Type :=
  | kGeneralBonding
  | kMITMGeneralBonding.
End AuthRequirements.

(** [PairingState::InitiatorAction]. *)
Module InitiatorAction.
Inductive t : Type :=
  | kDoNotSendAuthenticationRequest
  | kSendAuthenticationRequest.
End InitiatorAction.

(** [PairingDelegate::DisplayMethod]. *)
Module DisplayMethod.
Inductive t : Type :=
  | kComparison
  | kPeerEntry.
End DisplayMethod.

(** [hci::EventCode], [hci::StatusCode] and [hci::LinkKeyType] are 8-bit
    codes; [hci::ConnectionHandle] is a 16-bit one. *)
Definition EventCode : Type := Z.
Definition StatusCode : Type := Z.
Definition LinkKeyType : Type := Z.
Definition ConnectionHandle : Type := Z.
Definition PeerId : Type := Z.
Definition UInt128 : Type := Z.

(** ** Data model *)

(** Modelled from the spec: [hci::Status] is declared in hci/status.h.  A
    status is a success, an error code reported by the controller, or an error
    raised by the host; [if (status)] and [bt_is_error] test for success. *)
Inductive Status : Type :=
| Success
| ProtocolError (code : StatusCode)
| HostErr (e : HostError.t).

Definition is_success (s : Status) : bool :=
  match s with
  | Success => true
  | _ => false
  end.

(** Modelled from the spec: [sm::SecurityLevel] and [sm::SecurityProperties]
    are declared in sm/types.h; the properties of a key are whether it is
    authenticated and its security level. *)
Module sm.
Module SecurityLevel.
Inductive t : Type :=
| kNoSecurity
| kEncrypted
| kAuthenticated.

Definition eqb (a b : t) : bool :=
  match a, b with
  | kNoSecurity, kNoSecurity
  | kEncrypted, kEncrypted
  | kAuthenticated, kAuthenticated => true
  | _, _ => false
  end.
End SecurityLevel.

Record SecurityProperties : Type := {
  level : SecurityLevel.t;
  authenticated : bool
}.
End sm.

(** Modelled from the spec: [hci::LinkKey] and [hci::Connection] are declared
    in hci/link_key.h and hci/connection.h.  The link exposes its handle, the
    current link key and its type, a setter for a new key, and a request to
    start encryption that the link accepts or refuses synchronously;
    [StartEncryption_accepts] is the answer the link gives to that request. *)
Module hci.
Record LinkKey : Type := {
  value : UInt128;
  rand : Z;
  ediv : Z
}.

Record Connection : Type := {
  handle : ConnectionHandle;
  ltk : option LinkKey;
  ltk_type : option LinkKeyType;
  StartEncryption_accepts : bool
}.

Definition set_bredr_link_key (key : LinkKey) (type : LinkKeyType)
           (link : Connection) : Connection :=
  {| handle := handle link;
     ltk := Some key;
     ltk_type := Some type;
     StartEncryption_accepts := StartEncryption_accepts link |}.
End hci.

(** Modelled from the spec: [PairingDelegate] is declared in
    gap/pairing_delegate.h; the only datum read from it is its IO capability,
    an [sm::IOCapability] code. *)
Definition SmIOCapability : Type := Z.

Record PairingDelegate : Type := {
  io_capability : SmIOCapability
}.

(** Callbacks are identified, not executed: [StatusCallback],
    [UserConfirmationCallback] and [UserPasskeyCallback] of pairing_state.h. *)
Definition StatusCallback : Type := nat.
Definition UserConfirmationCallback : Type := nat.
Definition UserPasskeyCallback : Type := nat.

(** Modelled from the spec: [PairingState::Pairing] is declared in
    gap/pairing_state.h.  Its private constructor initialises no scalar
    member, so every member assigned later is optional here, [None] standing
    for a member that has not been assigned yet. *)
Record Pairing : Type := {
  initiator : bool;
  initiator_callbacks : list StatusCallback;
  local_iocap : option IOCapability.t;
  peer_iocap : option IOCapability.t;
  action : option PairingAction.t;
  expected_event : option EventCode;
  authenticated : option bool;
  security_properties : option sm.SecurityProperties
}.

(** Modelled from the spec: the members of [PairingState] are declared in
    gap/pairing_state.h.  [link_] is the part of the externally owned link
    that this file reads and writes; [pairing_delegate_] is [None] when no
    delegate is attached. *)
Record PairingState : Type := {
  peer_id_ : PeerId;
  link_ : hci.Connection;
  state_ : State.t;
  current_pairing_ : option Pairing;
  status_callback_ : StatusCallback;
  pairing_delegate_ : option PairingDelegate
}.

Definition is_pairing (ps : PairingState) : bool :=
  match current_pairing_ ps with
  | Some _ => true
  | None => false
  end.

(** [PairingState::initiator()] is false when no pairing is in progress. *)
Definition is_initiator (ps : PairingState) : bool :=
  match current_pairing_ ps with
  | Some p => initiator p
  | None => false
  end.

Definition handle (ps : PairingState) : ConnectionHandle :=
  hci.handle (link_ ps).

Definition has_delegate (ps : PairingState) : bool :=
  match pairing_delegate_ ps with
  | Some _ => true
  | None => false
  end.

Definition with_state (s : State.t) (ps : PairingState) : PairingState :=
  {| peer_id_ := peer_id_ ps;
     link_ := link_ ps;
     state_ := s;
     current_pairing_ := current_pairing_ ps;
     status_callback_ := status_callback_ ps;
     pairing_delegate_ := pairing_delegate_ ps |}.

Definition with_pairing (p : option Pairing) (ps : PairingState) : PairingState :=
  {| peer_id_ := peer_id_ ps;
     link_ := link_ ps;
     state_ := state_ ps;
     current_pairing_ := p;
     status_callback_ := status_callback_ ps;
     pairing_delegate_ := pairing_delegate_ ps |}.

Definition with_link (l : hci.Connection) (ps : PairingState) : PairingState :=
  {| peer_id_ := peer_id_ ps;
     link_ := l;
     state_ := state_ ps;
     current_pairing_ := current_pairing_ ps;
     status_callback_ := status_callback_ ps;
     pairing_delegate_ := pairing_delegate_ ps |}.

(** [PairingState::SetPairingDelegate] (pairing_state.h) replaces the weak
    pointer to the delegate; a delegate that goes away leaves [None]. *)
Definition SetPairingDelegate (d : option PairingDelegate) (ps : PairingState)
  : PairingState :=
  {| peer_id_ := peer_id_ ps;
     link_ := link_ ps;
     state_ := state_ ps;
     current_pairing_ := current_pairing_ ps;
     status_callback_ := status_callback_ ps;
     pairing_delegate_ := d |}.

(** The constructor (lines 17-24): the machine starts in [kIdle] with no
    pairing and, until [SetPairingDelegate] is called, no delegate. *)
Definition make_PairingState (peer_id : PeerId) (link : hci.Connection)
           (status_cb : StatusCallback) : PairingState :=
  {| peer_id_ := peer_id;
     link_ := link;
     state_ := State.kIdle;
     current_pairing_ := None;
     status_callback_ := status_cb;
     pairing_delegate_ := None |}.

Definition with_initiator_callbacks (cbs : list StatusCallback) (p : Pairing)
  : Pairing :=
  {| initiator := initiator p;
     initiator_callbacks := cbs;
     local_iocap := local_iocap p;
     peer_iocap := peer_iocap p;
     action := action p;
     expected_event := expected_event p;
     authenticated := authenticated p;
     security_properties := security_properties p |}.

Definition with_local_iocap (c : IOCapability.t) (p : Pairing) : Pairing :=
  {| initiator := initiator p;
     initiator_callbacks := initiator_callbacks p;
     local_iocap := Some c;
     peer_iocap := peer_iocap p;
     action := action p;
     expected_event := expected_event p;
     authenticated := authenticated p;
     security_properties := security_properties p |}.

Definition with_peer_iocap (c : IOCapability.t) (p : Pairing) : Pairing :=
  {| initiator := initiator p;
     initiator_callbacks := initiator_callbacks p;
     local_iocap := local_iocap p;
     peer_iocap := Some c;
     action := action p;
     expected_event := expected_event p;
     authenticated := authenticated p;
     security_properties := security_properties p |}.

Definition with_security_properties (s : sm.SecurityProperties) (p : Pairing)
  : Pairing :=
  {| initiator := initiator p;
     initiator_callbacks := initiator_callbacks p;
     local_iocap := local_iocap p;
     peer_iocap := peer_iocap p;
     action := action p;
     expected_event := expected_event p;
     authenticated := authenticated p;
     security_properties := Some s |}.

(** [Pairing::MakeInitiator] (lines 363-370). *)
Definition MakeInitiator (status_callback : StatusCallback) : Pairing :=
  {| initiator := true;
     initiator_callbacks := [status_callback];
     local_iocap := None;
     peer_iocap := None;
     action := None;
     expected_event := None;
     authenticated := None;
     security_properties := None |}.

(** [Pairing::MakeResponder] (lines 372-379). *)
Definition MakeResponder (peer : IOCapability.t) : Pairing :=
  {| initiator := false;
     initiator_callbacks := [];
     local_iocap := None;
     peer_iocap := Some peer;
     action := None;
     expected_event := None;
     authenticated := None;
     security_properties := None |}.

(** *** Outward calls

    The closures handed to the delegate hold the controller's reply callback
    and a weak pointer to the pairing they were made for. *)
Inductive ConfirmClosure : Type :=
| ConfirmThenReply (cb : UserConfirmationCallback)
| ConfirmLogOnly.

Inductive PasskeyClosure : Type :=
| PasskeyThenReply (cb : UserPasskeyCallback).

(** One record per call that leaves the object.  A status callback may
    re-enter or destroy the machine, so its record keeps the machine as the
    callback finds it ([seen]). *)
Inductive Effect : Type :=
| CallStatus (cb : StatusCallback) (h : ConnectionHandle) (status : Status)
             (seen : PairingState)
| ReplyUserConfirmation (cb : UserConfirmationCallback) (confirm : bool)
| ReplyUserPasskey (cb : UserPasskeyCallback) (passkey : option Z)
| DelegateDisplayPasskey (peer : PeerId) (numeric_value : Z)
                         (method : DisplayMethod.t) (confirm_cb : ConfirmClosure)
| DelegateConfirmPairing (peer : PeerId) (confirm_cb : ConfirmClosure)
| DelegateRequestPasskey (peer : PeerId) (passkey_cb : PasskeyClosure)
| DelegateCompletePairing (peer : PeerId) (status : Status)
| LinkStartEncryption.

(** The bodies of the closures (lines 144-152, 158-165, 220-226 and 193-204);
    [pairing_alive] is the validity of the captured weak pointer when the
    delegate answers. *)
Definition run_confirm_cb (c : ConfirmClosure) (pairing_alive confirm : bool)
  : list Effect :=
  match c with
  | ConfirmThenReply cb =>
      if negb pairing_alive then [] else [ReplyUserConfirmation cb confirm]
  | ConfirmLogOnly => []
  end.

Definition run_passkey_cb (c : PasskeyClosure) (pairing_alive : bool)
           (passkey : Z) : list Effect :=
  match c with
  | PasskeyThenReply cb =>
      if negb pairing_alive then []
      else if 0 <=? passkey then [ReplyUserPasskey cb (Some (passkey mod 2 ^ 32))]
      else [ReplyUserPasskey cb None]
  end.

(** The status callbacks invoked by a trace, in order, with their arguments. *)
Fixpoint status_calls (tr : list Effect)
  : list (StatusCallback * ConnectionHandle * Status) :=
  match tr with
  | [] => []
  | CallStatus cb h s _ :: tr' => (cb, h, s) :: status_calls tr'
  | _ :: tr' => status_calls tr'
  end.

(** What each status callback of a trace finds when it asks [is_pairing()]. *)
Fixpoint seen_is_pairing (tr : list Effect) : list bool :=
  match tr with
  | [] => []
  | CallStatus _ _ _ seen :: tr' => is_pairing seen :: seen_is_pairing tr'
  | _ :: tr' => seen_is_pairing tr'
  end.

(** *** The monad of member functions *)

Inductive Outcome (A : Type) : Type :=
| Done (a : A) (ps : PairingState) (tr : list Effect)
| Abort.

Arguments Done {A} a ps tr.
Arguments Abort {A}.

Definition M (A : Type) : Type := PairingState -> Outcome A.

Definition ret {A : Type} (a : A) : M A :=
  fun ps => Done a ps [].

Definition bind {A B : Type} (m : M A) (k : A -> M B) : M B :=
  fun ps =>
    match m ps with
    | Done a ps1 tr1 =>
        match k a ps1 with
        | Done b ps2 tr2 => Done b ps2 (tr1 ++ tr2)
        | Abort => Abort
        end
    | Abort => Abort
    end.

Notation "x <- m ;; k" := (bind m (fun x => k))
  (at level 61, m at next level, right associativity).
Notation "m ;; k" := (bind m (fun _ => k))
  (at level 61, right associativity).

Definition gets {A : Type} (f : PairingState -> A) : M A :=
  fun ps => Done (f ps) ps [].

Definition modify (f : PairingState -> PairingState) : M unit :=
  fun ps => Done tt (f ps) [].

Definition emit (e : Effect) : M unit :=
  fun ps => Done tt ps [e].

Definition abort {A : Type} : M A :=
  fun _ => Abort.

(** [ZX_ASSERT(cond)]: the process stops when [cond] is false. *)
Definition ZX_ASSERT (cond : bool) : M unit :=
  if cond then ret tt else abort.

(** [cb(handle, status)] for a status callback. *)
Definition call_status (cb : StatusCallback) (h : ConnectionHandle)
           (status : Status) : M unit :=
  fun ps => Done tt ps [CallStatus cb h status ps].

(** [current_pairing_->member]: dereferencing a null [current_pairing_], or
    reading a member nothing has assigned, has no defined result. *)
Definition pairing_member {A : Type} (member : Pairing -> option A) : M A :=
  fun ps =>
    match current_pairing_ ps with
    | Some p =>
        match member p with
        | Some a => Done a ps []
        | None => Abort
        end
    | None => Abort
    end.

(** [current_pairing_->member = ...]. *)
Definition update_pairing (f : Pairing -> Pairing) : M unit :=
  fun ps =>
    match current_pairing_ ps with
    | Some p => Done tt (with_pairing (Some (f p)) ps) []
    | None => Abort
    end.

(** [pairing_delegate()->...]: the delegate, which must be attached. *)
Definition deref_pairing_delegate : M PairingDelegate :=
  fun ps =>
    match pairing_delegate_ ps with
    | Some d => Done d ps []
    | None => Abort
    end.

Fixpoint for_each {A : Type} (l : list A) (body : A -> M unit) : M unit :=
  match l with
  | [] => ret tt
  | a :: l' => body a ;; for_each l' body
  end.

(** ** What the other headers provide

    The constants of hci/hci_constants.h that this file names, the
    classification of a link key by [sm::SecurityProperties(hci::LinkKeyType)]
    (sm/types.h) and the conversion [sm::util::IOCapabilityForHci]
    (sm/util.h).  The machine is parametric in them. *)
Class HciConstants : Type := {
  kUserConfirmationRequestEventCode : EventCode;
  kUserPasskeyRequestEventCode : EventCode;
  kUserPasskeyNotificationEventCode : EventCode;
  kSuccess : StatusCode;
  kDebugCombination : LinkKeyType;
  kChangedCombination : LinkKeyType;
  SecurityPropertiesOf : LinkKeyType -> sm.SecurityProperties;
  IOCapabilityForHci : SmIOCapability -> IOCapability.t
}.

(** The values the Bluetooth Core Specification and the security manager give
    to these constants; they are used to run the model on concrete inputs. *)
Module CoreSpec.
Definition kUserConfirmationRequestEventCode : EventCode := 0x33.
Definition kUserPasskeyRequestEventCode : EventCode := 0x34.
Definition kUserPasskeyNotificationEventCode : EventCode := 0x3B.
Definition kSuccess : StatusCode := 0x00.
Definition kAuthenticationFailure : StatusCode := 0x05.
Definition kDebugCombination : LinkKeyType := 0x03.
Definition kUnauthenticatedCombination192 : LinkKeyType := 0x04.
Definition kAuthenticatedCombination192 : LinkKeyType := 0x05.
Definition kChangedCombination : LinkKeyType := 0x06.
Definition kUnauthenticatedCombination256 : LinkKeyType := 0x07.
Definition kAuthenticatedCombination256 : LinkKeyType := 0x08.

Definition SecurityLevelFromLinkKey (lk_type : LinkKeyType)
  : sm.SecurityLevel.t :=
  if (lk_type =? kDebugCombination)
     || (lk_type =? kUnauthenticatedCombination192)
     || (lk_type =? kUnauthenticatedCombination256)
  then sm.SecurityLevel.kEncrypted
  else if (lk_type =? kAuthenticatedCombination192)
          || (lk_type =? kAuthenticatedCombination256)
  then sm.SecurityLevel.kAuthenticated
  else sm.SecurityLevel.kNoSecurity.

Definition SecurityPropertiesOf (lk_type : LinkKeyType)
  : sm.SecurityProperties :=
  {| sm.level := SecurityLevelFromLinkKey lk_type;
     sm.authenticated :=
       sm.SecurityLevel.eqb (SecurityLevelFromLinkKey lk_type)
                            sm.SecurityLevel.kAuthenticated |}.

Definition IOCapabilityForHci (capability : SmIOCapability) : IOCapability.t :=
  if capability =? 0 then IOCapability.kDisplayOnly
  else if capability =? 1 then IOCapability.kDisplayYesNo
  else if capability =? 2 then IOCapability.kKeyboardOnly
  else if capability =? 3 then IOCapability.kNoInputNoOutput
  else if capability =? 4 then IOCapability.kDisplayYesNo
  else IOCapability.kNoInputNoOutput.
End CoreSpec.

Definition core_spec : HciConstants :=
  {| kUserConfirmationRequestEventCode := CoreSpec.kUserConfirmationRequestEventCode;
     kUserPasskeyRequestEventCode := CoreSpec.kUserPasskeyRequestEventCode;
     kUserPasskeyNotificationEventCode := CoreSpec.kUserPasskeyNotificationEventCode;
     kSuccess := CoreSpec.kSuccess;
     kDebugCombination := CoreSpec.kDebugCombination;
     kChangedCombination := CoreSpec.kChangedCombination;
     SecurityPropertiesOf := CoreSpec.SecurityPropertiesOf;
     IOCapabilityForHci := CoreSpec.IOCapabilityForHci |}.

(** ** The decision tables as the design document words them *)

Module Tables.
Import IOCapability PairingAction.

(** The three confirmation events the tables name. *)
Inductive ExpectedEvent : Type :=
  | UserConfirmationRequest
  | UserPasskeyRequest
  | UserPasskeyNotification.

Definition code_of (kUCR kUPR kUPN : EventCode) (e : ExpectedEvent) : EventCode :=
  match e with
  | UserConfirmationRequest => kUCR
  | UserPasskeyRequest => kUPR
  | UserPasskeyNotification => kUPN
  end.

(** Action, read clause by clause: Automatic if the initiator is
    NoInputNoOutput; if the responder is NoInputNoOutput, GetConsent when
    the initiator is DisplayYesNo, else Automatic; RequestPasskey if the
    initiator is KeyboardOnly; ComparePasskey if the responder is
    DisplayOnly and the initiator is DisplayYesNo; else DisplayPasskey. *)
Definition Action (initiatorCap responderCap : IOCapability.t) : PairingAction.t :=
  match initiatorCap, responderCap with
  | kNoInputNoOutput, _ => kAutomatic
  | kDisplayYesNo, kNoInputNoOutput => kGetConsent
  | _, kNoInputNoOutput => kAutomatic
  | kKeyboardOnly, _ => kRequestPasskey
  | kDisplayYesNo, kDisplayOnly => kComparePasskey
  | _, _ => kDisplayPasskey
  end.

(** The same table with the clause the code has in addition: when the
    responder is DisplayOnly and the initiator is not DisplayYesNo (so it is
    DisplayOnly), the action is Automatic. *)
Definition ActionAmended (initiatorCap responderCap : IOCapability.t)
  : PairingAction.t :=
  match initiatorCap, responderCap with
  | kNoInputNoOutput, _ => kAutomatic
  | kDisplayYesNo, kNoInputNoOutput => kGetConsent
  | _, kNoInputNoOutput => kAutomatic
  | kKeyboardOnly, _ => kRequestPasskey
  | kDisplayYesNo, kDisplayOnly => kComparePasskey
  | _, kDisplayOnly => kAutomatic
  | _, _ => kDisplayPasskey
  end.

(** ResponderAction over a given Action table: GetConsent when the
    initiator is NoInputNoOutput and the responder KeyboardOnly;
    ComparePasskey when both are DisplayYesNo; otherwise the Action table
    with the roles swapped. *)
Definition ResponderActionOver
           (action : IOCapability.t -> IOCapability.t -> PairingAction.t)
           (initiatorCap responderCap : IOCapability.t) : PairingAction.t :=
  match initiatorCap, responderCap with
  | kNoInputNoOutput, kKeyboardOnly => kGetConsent
  | kDisplayYesNo, kDisplayYesNo => kComparePasskey
  | _, _ => action responderCap initiatorCap
  end.

Definition ResponderAction := ResponderActionOver Action.
Definition ResponderActionAmended := ResponderActionOver ActionAmended.

Definition ExpectedEventOf (localCap peerCap : IOCapability.t) : ExpectedEvent :=
  match localCap, peerCap with
  | kNoInputNoOutput, _ | _, kNoInputNoOutput => UserConfirmationRequest
  | kKeyboardOnly, _ => UserPasskeyRequest
  | _, kKeyboardOnly => UserPasskeyNotification
  | _, _ => UserConfirmationRequest
  end.

Definition Authenticated (localCap peerCap : IOCapability.t) : bool :=
  match localCap, peerCap with
  | kNoInputNoOutput, _ | _, kNoInputNoOutput => false
  | kDisplayYesNo, kDisplayYesNo => true
  | kKeyboardOnly, _ | _, kKeyboardOnly => true
  | _, _ => false
  end.
End Tables.

(** ** Decision functions (pairing_state.cc, lines 479-551) *)

Section Hci.

Import IOCapability PairingAction.

Context {constants : HciConstants}.

Definition GetInitiatorPairingAction
           (initiator_cap responder_cap : IOCapability.t) : PairingAction.t :=
  if IOCapability.eqb initiator_cap kNoInputNoOutput then kAutomatic
  else if IOCapability.eqb responder_cap kNoInputNoOutput then
    if IOCapability.eqb initiator_cap kDisplayYesNo then kGetConsent
    else kAutomatic
  else if IOCapability.eqb initiator_cap kKeyboardOnly then kRequestPasskey
  else if IOCapability.eqb responder_cap kDisplayOnly then
    if IOCapability.eqb initiator_cap kDisplayYesNo then kComparePasskey
    else kAutomatic
  else kDisplayPasskey.

Definition GetResponderPairingAction
           (initiator_cap responder_cap : IOCapability.t) : PairingAction.t :=
  if IOCapability.eqb initiator_cap kNoInputNoOutput
     && IOCapability.eqb responder_cap kKeyboardOnly then kGetConsent
  else if IOCapability.eqb initiator_cap kDisplayYesNo
          && IOCapability.eqb responder_cap kDisplayYesNo then kComparePasskey
  else GetInitiatorPairingAction responder_cap initiator_cap.

Definition GetExpectedEvent (local_cap peer_cap : IOCapability.t) : EventCode :=
  if IOCapability.eqb local_cap kNoInputNoOutput
     || IOCapability.eqb peer_cap kNoInputNoOutput
  then kUserConfirmationRequestEventCode
  else if IOCapability.eqb local_cap kKeyboardOnly
  then kUserPasskeyRequestEventCode
  else if IOCapability.eqb peer_cap kKeyboardOnly
  then kUserPasskeyNotificationEventCode
  else kUserConfirmationRequestEventCode.

Definition IsPairingAuthenticated (local_cap peer_cap : IOCapability.t) : bool :=
  if IOCapability.eqb local_cap kNoInputNoOutput
     || IOCapability.eqb peer_cap kNoInputNoOutput then false
  else if IOCapability.eqb local_cap kDisplayYesNo
          && IOCapability.eqb peer_cap kDisplayYesNo then true
  else if IOCapability.eqb local_cap kKeyboardOnly
          || IOCapability.eqb peer_cap kKeyboardOnly then true
  else false.

Definition GetInitiatorAuthRequirements
           (local_cap : IOCapability.t) : AuthRequirements.t :=
  if IOCapability.eqb local_cap kNoInputNoOutput
  then AuthRequirements.kGeneralBonding
  else AuthRequirements.kMITMGeneralBonding.

Definition GetResponderAuthRequirements
           (local_cap peer_cap : IOCapability.t) : AuthRequirements.t :=
  if IsPairingAuthenticated local_cap peer_cap
  then AuthRequirements.kMITMGeneralBonding
  else AuthRequirements.kGeneralBonding.

(** [PairingState::GetStateForPairingEvent]: a [switch] over the three
    event codes, every other code falling through to [kFailed]. *)
Definition GetStateForPairingEvent (event_code : EventCode) : State.t :=
  if event_code =? kUserConfirmationRequestEventCode
  then State.kWaitUserConfirmationRequest
  else if event_code =? kUserPasskeyRequestEventCode
  then State.kWaitUserPasskeyRequest
  else if event_code =? kUserPasskeyNotificationEventCode
  then State.kWaitUserPasskeyNotification
  else State.kFailed.

(** ** The state machine (pairing_state.cc, lines 32-477) *)

(** [hci::Status(status_code)]: success exactly for [kSuccess]. *)
Definition StatusOfCode (status_code : StatusCode) : Status :=
  if status_code =? kSuccess then Success else ProtocolError status_code.

(** [Pairing::ComputePairingData] (lines 381-395).  It reads both
    capabilities; the [ZX_DEBUG_ASSERT] is kept as an assertion. *)
Definition ComputePairingData (p : Pairing) : option Pairing :=
  match local_iocap p, peer_iocap p with
  | Some local, Some peer =>
      let new_action :=
        if initiator p then GetInitiatorPairingAction local peer
        else GetResponderPairingAction peer local in
      let new_expected_event := GetExpectedEvent local peer in
      if State.eqb (GetStateForPairingEvent new_expected_event) State.kFailed
      then None
      else Some {| initiator := initiator p;
                   initiator_callbacks := initiator_callbacks p;
                   local_iocap := local_iocap p;
                   peer_iocap := peer_iocap p;
                   action := Some new_action;
                   expected_event := Some new_expected_event;
                   authenticated := Some (IsPairingAuthenticated local peer);
                   security_properties := security_properties p |}
  | _, _ => None
  end.

(** [current_pairing_->ComputePairingData()]. *)
Definition compute_pairing_data : M unit :=
  fun ps =>
    match current_pairing_ ps with
    | Some p =>
        match ComputePairingData p with
        | Some p' => Done tt (with_pairing (Some p') ps) []
        | None => Abort
        end
    | None => Abort
    end.

(** [PairingState::SignalStatus] (lines 443-459). *)
Definition SignalStatus (status : Status) : M unit :=
  pairing <- gets current_pairing_ ;;
  callbacks_to_signal <-
    match pairing with
    | Some p =>
        update_pairing (with_initiator_callbacks []) ;;
        modify (with_pairing None) ;;
        ret (initiator_callbacks p)
    | None => ret []
    end ;;
  h <- gets handle ;;
  status_callback <- gets status_callback_ ;;
  call_status status_callback h status ;;
  for_each callbacks_to_signal (fun cb => call_status cb h status).

(** [PairingState::EnableEncryption] (lines 461-470). *)
Definition EnableEncryption : M unit :=
  emit LinkStartEncryption ;;
  accepted <- gets (fun ps => hci.StartEncryption_accepts (link_ ps)) ;;
  if negb accepted then
    status_callback <- gets status_callback_ ;;
    h <- gets handle ;;
    call_status status_callback h (HostErr HostError.kFailed) ;;
    modify (with_state State.kFailed)
  else
    modify (with_state State.kWaitEncryption).

(** [PairingState::FailWithUnexpectedEvent] (lines 472-477). *)
Definition FailWithUnexpectedEvent : M unit :=
  modify (with_state State.kFailed) ;;
  SignalStatus (HostErr HostError.kNotSupported).

(** [PairingState::InitiatePairing] (lines 32-66). *)
Definition InitiatePairing (status_cb : StatusCallback) : M InitiatorAction.t :=
  delegate <- gets has_delegate ;;
  if negb delegate then
    h <- gets handle ;;
    call_status status_cb h (HostErr HostError.kNotReady) ;;
    ret InitiatorAction.kDoNotSendAuthenticationRequest
  else
    st <- gets state_ ;;
    if State.eqb st State.kIdle then
      pairing <- gets is_pairing ;;
      ZX_ASSERT (negb pairing) ;;
      modify (with_pairing (Some (MakeInitiator status_cb))) ;;
      modify (with_state State.kInitiatorPairingStarted) ;;
      ret InitiatorAction.kSendAuthenticationRequest
    else
      pairing <- gets is_pairing ;;
      (if pairing then
         ZX_ASSERT (negb (State.eqb st State.kIdle)) ;;
         callbacks <- pairing_member (fun p => Some (initiator_callbacks p)) ;;
         update_pairing (with_initiator_callbacks (callbacks ++ [status_cb]))
       else
         ZX_ASSERT (State.eqb st State.kFailed) ;;
         h <- gets handle ;;
         call_status status_cb h (HostErr HostError.kCanceled)) ;;
      ret InitiatorAction.kDoNotSendAuthenticationRequest.

(** [PairingState::OnIoCapabilityRequest] (lines 68-105). *)
Definition OnIoCapabilityRequest : M (option IOCapability.t) :=
  st <- gets state_ ;;
  if State.eqb st State.kInitiatorPairingStarted then
    init <- gets is_initiator ;;
    ZX_ASSERT init ;;
    delegate <- gets has_delegate ;;
    ZX_ASSERT delegate ;;
    d <- deref_pairing_delegate ;;
    update_pairing (with_local_iocap (IOCapabilityForHci (io_capability d))) ;;
    modify (with_state State.kInitiatorWaitIoCapResponse) ;;
    local <- pairing_member local_iocap ;;
    ret (Some local)
  else if State.eqb st State.kResponderWaitIoCapRequest then
    pairing <- gets is_pairing ;;
    ZX_ASSERT pairing ;;
    init <- gets is_initiator ;;
    ZX_ASSERT (negb init) ;;
    delegate <- gets has_delegate ;;
    if negb delegate then
      modify (with_state State.kIdle) ;;
      SignalStatus (HostErr HostError.kNotReady) ;;
      ret None
    else
      d <- deref_pairing_delegate ;;
      update_pairing (with_local_iocap (IOCapabilityForHci (io_capability d))) ;;
      compute_pairing_data ;;
      event <- pairing_member expected_event ;;
      modify (with_state (GetStateForPairingEvent event)) ;;
      local <- pairing_member local_iocap ;;
      ret (Some local)
  else
    FailWithUnexpectedEvent ;;
    ret None.

(** [PairingState::OnIoCapabilityResponse] (lines 107-125). *)
Definition OnIoCapabilityResponse (peer : IOCapability.t) : M unit :=
  st <- gets state_ ;;
  if State.eqb st State.kIdle then
    pairing <- gets is_pairing ;;
    ZX_ASSERT (negb pairing) ;;
    modify (with_pairing (Some (MakeResponder peer))) ;;
    modify (with_state State.kResponderWaitIoCapRequest)
  else if State.eqb st State.kInitiatorWaitIoCapResponse then
    init <- gets is_initiator ;;
    ZX_ASSERT init ;;
    update_pairing (with_peer_iocap peer) ;;
    compute_pairing_data ;;
    event <- pairing_member expected_event ;;
    modify (with_state (GetStateForPairingEvent event))
  else
    FailWithUnexpectedEvent.

(** [PairingState::OnUserConfirmationRequest] (lines 127-175). *)
Definition OnUserConfirmationRequest (numeric_value : Z)
           (cb : UserConfirmationCallback) : M unit :=
  st <- gets state_ ;;
  if negb (State.eqb st State.kWaitUserConfirmationRequest) then
    FailWithUnexpectedEvent ;;
    emit (ReplyUserConfirmation cb false)
  else
    pairing <- gets is_pairing ;;
    ZX_ASSERT pairing ;;
    delegate <- gets has_delegate ;;
    ZX_ASSERT delegate ;;
    modify (with_state State.kWaitPairingComplete) ;;
    act <- pairing_member action ;;
    peer <- gets peer_id_ ;;
    if PairingAction.eqb act PairingAction.kDisplayPasskey
       || PairingAction.eqb act PairingAction.kComparePasskey then
      emit (DelegateDisplayPasskey peer numeric_value DisplayMethod.kComparison
                                   (ConfirmThenReply cb))
    else if PairingAction.eqb act PairingAction.kGetConsent then
      emit (DelegateConfirmPairing peer (ConfirmThenReply cb))
    else
      ZX_ASSERT (PairingAction.eqb act PairingAction.kAutomatic) ;;
      emit (ReplyUserConfirmation cb true).

(** [PairingState::OnUserPasskeyRequest] (lines 177-206). *)
Definition OnUserPasskeyRequest (cb : UserPasskeyCallback) : M unit :=
  st <- gets state_ ;;
  if negb (State.eqb st State.kWaitUserPasskeyRequest) then
    FailWithUnexpectedEvent ;;
    emit (ReplyUserPasskey cb None)
  else
    pairing <- gets is_pairing ;;
    ZX_ASSERT pairing ;;
    delegate <- gets has_delegate ;;
    ZX_ASSERT delegate ;;
    modify (with_state State.kWaitPairingComplete) ;;
    act <- pairing_member action ;;
    ZX_ASSERT (PairingAction.eqb act PairingAction.kRequestPasskey) ;;
    peer <- gets peer_id_ ;;
    emit (DelegateRequestPasskey peer (PasskeyThenReply cb)).

(** [PairingState::OnUserPasskeyNotification] (lines 208-229). *)
Definition OnUserPasskeyNotification (numeric_value : Z) : M unit :=
  st <- gets state_ ;;
  if negb (State.eqb st State.kWaitUserPasskeyNotification) then
    FailWithUnexpectedEvent
  else
    pairing <- gets is_pairing ;;
    ZX_ASSERT pairing ;;
    delegate <- gets has_delegate ;;
    ZX_ASSERT delegate ;;
    modify (with_state State.kWaitPairingComplete) ;;
    peer <- gets peer_id_ ;;
    emit (DelegateDisplayPasskey peer numeric_value DisplayMethod.kPeerEntry
                                 ConfirmLogOnly).

(** [PairingState::OnSimplePairingComplete] (lines 231-252). *)
Definition OnSimplePairingComplete (status_code : StatusCode) : M unit :=
  st <- gets state_ ;;
  if negb (State.eqb st State.kWaitPairingComplete) then
    FailWithUnexpectedEvent
  else
    pairing <- gets is_pairing ;;
    ZX_ASSERT pairing ;;
    let status := StatusOfCode status_code in
    peer <- gets peer_id_ ;;
    if negb (is_success status) then
      delegate <- gets has_delegate ;;
      (if delegate
       then emit (DelegateCompletePairing peer (HostErr HostError.kFailed))
       else ret tt) ;;
      modify (with_state State.kFailed) ;;
      SignalStatus status
    else
      deref_pairing_delegate ;;
      emit (DelegateCompletePairing peer Success) ;;
      modify (with_state State.kWaitLinkKey).

(** [PairingState::OnLinkKeyNotification] (lines 254-313). *)
Definition OnLinkKeyNotification (link_key : UInt128) (key_type : LinkKeyType)
  : M unit :=
  ZX_ASSERT (negb (key_type =? kDebugCombination)) ;;
  st <- gets state_ ;;
  if State.eqb st State.kIdle && (key_type =? kChangedCombination) then
    current_key <- gets (fun ps => hci.ltk (link_ ps)) ;;
    match current_key with
    | None =>
        modify (with_state State.kFailed) ;;
        SignalStatus (HostErr HostError.kInsufficientSecurity)
    | Some _ =>
        modify (fun ps =>
          with_link (hci.set_bredr_link_key
                       {| hci.value := link_key; hci.rand := 0; hci.ediv := 0 |}
                       key_type (link_ ps)) ps)
    end
  else if negb (State.eqb st State.kWaitLinkKey) then
    FailWithUnexpectedEvent
  else
    pairing <- gets is_pairing ;;
    ZX_ASSERT pairing ;;
    let sec_props := SecurityPropertiesOf key_type in
    update_pairing (with_security_properties sec_props) ;;
    if sm.SecurityLevel.eqb (sm.level sec_props) sm.SecurityLevel.kNoSecurity then
      modify (with_state State.kFailed) ;;
      SignalStatus (HostErr HostError.kInsufficientSecurity)
    else
      expected <- pairing_member authenticated ;;
      if negb (Bool.eqb (sm.authenticated sec_props) expected) then
        modify (with_state State.kFailed) ;;
        SignalStatus (HostErr HostError.kInsufficientSecurity)
      else
        modify (fun ps =>
          with_link (hci.set_bredr_link_key
                       {| hci.value := link_key; hci.rand := 0; hci.ediv := 0 |}
                       key_type (link_ ps)) ps) ;;
        init <- gets is_initiator ;;
        if init then modify (with_state State.kInitiatorWaitAuthComplete)
        else EnableEncryption.

(** [PairingState::OnAuthenticationComplete] (lines 315-331). *)
Definition OnAuthenticationComplete (status_code : StatusCode) : M unit :=
  st <- gets state_ ;;
  if negb (State.eqb st State.kInitiatorPairingStarted)
     && negb (State.eqb st State.kInitiatorWaitAuthComplete) then
    FailWithUnexpectedEvent
  else
    init <- gets is_initiator ;;
    ZX_ASSERT init ;;
    let status := StatusOfCode status_code in
    if negb (is_success status) then
      modify (with_state State.kFailed) ;;
      SignalStatus status
    else
      EnableEncryption.

(** [PairingState::OnEncryptionChange] (lines 333-361). *)
Definition OnEncryptionChange (status : Status) (enabled : bool) : M unit :=
  st <- gets state_ ;;
  if negb (State.eqb st State.kWaitEncryption) then
    ret tt
  else
    let status :=
      if is_success status && negb enabled
      then HostErr HostError.kFailed
      else status in
    (if is_success status
     then modify (with_state State.kIdle)
     else modify (with_state State.kFailed)) ;;
    SignalStatus status.

(** *** Inputs of the machine, one per entry point *)

Inductive Input : Type :=
| InInitiatePairing (status_cb : StatusCallback)
| InIoCapabilityRequest
| InIoCapabilityResponse (peer : IOCapability.t)
| InUserConfirmationRequest (numeric_value : Z) (cb : UserConfirmationCallback)
| InUserPasskeyRequest (cb : UserPasskeyCallback)
| InUserPasskeyNotification (numeric_value : Z)
| InSimplePairingComplete (status_code : StatusCode)
| InLinkKeyNotification (link_key : UInt128) (key_type : LinkKeyType)
| InAuthenticationComplete (status_code : StatusCode)
| InEncryptionChange (status : Status) (enabled : bool).

Definition discard {A : Type} (m : M A) : M unit :=
  _ <- m ;; ret tt.

Definition deliver (i : Input) : M unit :=
  match i with
  | InInitiatePairing status_cb => discard (InitiatePairing status_cb)
  | InIoCapabilityRequest => discard OnIoCapabilityRequest
  | InIoCapabilityResponse peer => OnIoCapabilityResponse peer
  | InUserConfirmationRequest n cb => OnUserConfirmationRequest n cb
  | InUserPasskeyRequest cb => OnUserPasskeyRequest cb
  | InUserPasskeyNotification n => OnUserPasskeyNotification n
  | InSimplePairingComplete c => OnSimplePairingComplete c
  | InLinkKeyNotification k t => OnLinkKeyNotification k t
  | InAuthenticationComplete c => OnAuthenticationComplete c
  | InEncryptionChange s e => OnEncryptionChange s e
  end.



(** ** Specification vocabulary *)

(** The initiator callbacks queued on the current pairing, in arrival order. *)
Definition queued_callbacks (ps : PairingState) : list StatusCallback :=
  match current_pairing_ ps with
  | Some p => initiator_callbacks p
  | None => []
  end.

(** One call per waiting party, the top-level callback first: every call
    passes [status] and the handle of [ps], and finds the pairing gone. *)
Definition signal_calls (status : Status) (ps : PairingState) : list Effect :=
  map (fun cb => CallStatus cb (handle ps) status (with_pairing None ps))
      (status_callback_ ps :: queued_callbacks ps).

(** A machine the constructor made and that was driven through its entry
    points; the delegate and the link may change between two inputs. *)
Inductive reachable : PairingState -> Prop :=
| reachable_new peer_id link status_cb :
    reachable (make_PairingState peer_id link status_cb)
| reachable_delegate d ps :
    reachable ps -> reachable (SetPairingDelegate d ps)
| reachable_link l ps :
    reachable ps -> reachable (with_link l ps)
| reachable_deliver i ps ps' tr :
    reachable ps -> deliver i ps = Done tt ps' tr -> reachable ps'.


Local Open Scope string_scope.

(** [PairingState::ToString] (lines 397-427). *)
Definition ToString (state : State.t) : String.string :=
  match state with
  | State.kIdle => "Idle"
  | State.kInitiatorPairingStarted => "InitiatorPairingStarted"
  | State.kInitiatorWaitIoCapResponse => "InitiatorWaitIoCapResponse"
  | State.kResponderWaitIoCapRequest => "ResponderWaitIoCapRequest"
  | State.kWaitUserConfirmationRequest => "WaitUserConfirmationRequest"
  | State.kWaitUserPasskeyRequest => "WaitUserPasskeyRequest"
  | State.kWaitUserPasskeyNotification => "WaitUserPasskeyNotification"
  | State.kWaitPairingComplete => "WaitPairingComplete"
  | State.kWaitLinkKey => "WaitLinkKey"
  | State.kInitiatorWaitAuthComplete => "InitiatorWaitAuthComplete"
  | State.kWaitEncryption => "WaitEncryption"
  | State.kFailed => "Failed"
  end.

Local Close Scope string_scope.

(** The three event codes label the cases of one [switch]: they are pairwise
    distinct. *)
Definition event_codes_distinct : Prop :=
  kUserConfirmationRequestEventCode <> kUserPasskeyRequestEventCode
  /\ kUserConfirmationRequestEventCode <> kUserPasskeyNotificationEventCode
  /\ kUserPasskeyRequestEventCode <> kUserPasskeyNotificationEventCode.

(** The members [ComputePairingData] assigns hold what the decision functions
    give for the two capabilities of the pairing. *)
Definition pairing_data_computed (p : Pairing) (local peer : IOCapability.t)
  : Prop :=
  local_iocap p = Some local
  /\ peer_iocap p = Some peer
  /\ action p
     = Some (if initiator p then GetInitiatorPairingAction local peer
             else GetResponderPairingAction peer local)
  /\ expected_event p = Some (GetExpectedEvent local peer)
  /\ authenticated p = Some (IsPairingAuthenticated local peer).

(** What each state says about the current pairing. *)
Definition consistent (ps : PairingState) : Prop :=
  match state_ ps with
  | State.kIdle => current_pairing_ ps = None
  | State.kInitiatorPairingStarted =>
      exists p, current_pairing_ ps = Some p /\ initiator p = true
  | State.kInitiatorWaitIoCapResponse =>
      exists p local,
        current_pairing_ ps = Some p /\ initiator p = true
        /\ local_iocap p = Some local
  | State.kResponderWaitIoCapRequest =>
      exists p peer,
        current_pairing_ ps = Some p /\ initiator p = false
        /\ peer_iocap p = Some peer
  | State.kWaitUserConfirmationRequest
  | State.kWaitUserPasskeyRequest
  | State.kWaitUserPasskeyNotification =>
      exists p local peer,
        current_pairing_ ps = Some p /\ pairing_data_computed p local peer
        /\ state_ ps = GetStateForPairingEvent (GetExpectedEvent local peer)
  | State.kWaitPairingComplete
  | State.kWaitLinkKey =>
      exists p local peer,
        current_pairing_ ps = Some p /\ pairing_data_computed p local peer
  | State.kInitiatorWaitAuthComplete =>
      exists p local peer,
        current_pairing_ ps = Some p /\ initiator p = true
        /\ pairing_data_computed p local peer
  | State.kWaitEncryption =>
      exists p, current_pairing_ ps = Some p
  | State.kFailed => True
  end.

(** The inputs on which an entry point stops the process: a Debug Combination
    link key, and the entry points that use the delegate without testing for
    it, when no delegate is attached. *)
Definition aborts (i : Input) (ps : PairingState) : bool :=
  match i with
  | InLinkKeyNotification _ key_type => key_type =? kDebugCombination
  | InIoCapabilityRequest =>
      State.eqb (state_ ps) State.kInitiatorPairingStarted
      && negb (has_delegate ps)
  | InUserConfirmationRequest _ _ =>
      State.eqb (state_ ps) State.kWaitUserConfirmationRequest
      && negb (has_delegate ps)
  | InUserPasskeyRequest _ =>
      State.eqb (state_ ps) State.kWaitUserPasskeyRequest
      && negb (has_delegate ps)
  | InUserPasskeyNotification _ =>
      State.eqb (state_ ps) State.kWaitUserPasskeyNotification
      && negb (has_delegate ps)
  | InSimplePairingComplete status_code =>
      State.eqb (state_ ps) State.kWaitPairingComplete
      && (status_code =? kSuccess) && negb (has_delegate ps)
  | _ => false
  end.

(** The states in which an entry point does not take the
    [FailWithUnexpectedEvent] path. *)
Definition expected_in (i : Input) (st : State.t) : bool :=
  match i with
  | InInitiatePairing _ => true
  | InIoCapabilityRequest =>
      State.eqb st State.kInitiatorPairingStarted
      || State.eqb st State.kResponderWaitIoCapRequest
  | InIoCapabilityResponse _ =>
      State.eqb st State.kIdle
      || State.eqb st State.kInitiatorWaitIoCapResponse
  | InUserConfirmationRequest _ _ =>
      State.eqb st State.kWaitUserConfirmationRequest
  | InUserPasskeyRequest _ => State.eqb st State.kWaitUserPasskeyRequest
  | InUserPasskeyNotification _ =>
      State.eqb st State.kWaitUserPasskeyNotification
  | InSimplePairingComplete _ => State.eqb st State.kWaitPairingComplete
  | InLinkKeyNotification _ key_type =>
      (State.eqb st State.kIdle && (key_type =? kChangedCombination))
      || State.eqb st State.kWaitLinkKey
  | InAuthenticationComplete _ =>
      State.eqb st State.kInitiatorPairingStarted
      || State.eqb st State.kInitiatorWaitAuthComplete
  | InEncryptionChange _ _ => true
  end.

(** A sequence of inputs, delivered in order. *)
Definition deliver_all (inputs : list Input) : M unit :=
  for_each inputs deliver.


(** Sample machines, on the link of handle 0x0BAD with top-level callback 0. *)
Definition sample_link (accepts : bool) : hci.Connection :=
  {| hci.handle := 0x0BAD;
     hci.ltk := None;
     hci.ltk_type := None;
     hci.StartEncryption_accepts := accepts |}.

Definition sample_delegate : PairingDelegate :=
  {| io_capability := 1 |}.

Definition sample_machine (st : State.t) (p : option Pairing)
           (d : option PairingDelegate) (accepts : bool) : PairingState :=
  {| peer_id_ := 1;
     link_ := sample_link accepts;
     state_ := st;
     current_pairing_ := p;
     status_callback_ := 0%nat;
     pairing_delegate_ := d |}.

(** An initiator's pairing after the capability exchange between two
    DisplayYesNo devices. *)
Definition sample_pairing (cbs : list StatusCallback) : Pairing :=
  {| initiator := true;
     initiator_callbacks := cbs;
     local_iocap := Some IOCapability.kDisplayYesNo;
     peer_iocap := Some IOCapability.kDisplayYesNo;
     action := Some PairingAction.kDisplayPasskey;
     expected_event := Some CoreSpec.kUserConfirmationRequestEventCode;
     authenticated := Some true;
     security_properties := None |}.

(** More sample machines: a new machine with a delegate, and the pairing of
    a KeyboardOnly initiator with a DisplayYesNo peer after the capability
    exchange. *)
Definition sample_fresh : PairingState :=
  SetPairingDelegate (Some sample_delegate)
    (make_PairingState 1 (sample_link true) 0%nat).

Definition sample_keyboard_pairing (cbs : list StatusCallback) : Pairing :=
  {| initiator := true;
     initiator_callbacks := cbs;
     local_iocap := Some IOCapability.kKeyboardOnly;
     peer_iocap := Some IOCapability.kDisplayYesNo;
     action := Some PairingAction.kRequestPasskey;
     expected_event := Some CoreSpec.kUserPasskeyRequestEventCode;
     authenticated := Some true;
     security_properties := None |}.

(** ** Proofs *)

Lemma for_each_call_status (cbs : list StatusCallback) (h : ConnectionHandle)
      (status : Status) (ps : PairingState) :
  for_each cbs (fun cb => call_status cb h status) ps
  = Done tt ps (map (fun cb => CallStatus cb h status ps) cbs).
Proof.
  induction cbs as [|cb cbs IH]; cbn.
  - reflexivity.
  - rewrite IH. reflexivity.
Qed.

Lemma SignalStatus_eq (status : Status) (ps : PairingState) :
  SignalStatus status ps
  = Done tt (with_pairing None ps) (signal_calls status ps).
Proof.
  unfold SignalStatus, signal_calls, queued_callbacks.
  destruct ps as [peer link st [p|] top dlg]; cbn;
    rewrite ?for_each_call_status; reflexivity.
Qed.


(** Evaluation of an entry point on a machine whose fields are known as far
    as the entry point inspects them; [SignalStatus] is replaced by its
    closed form. *)
Ltac run_machine :=
  repeat (cbv beta iota zeta delta
            [bind gets modify emit ret abort ZX_ASSERT call_status pairing_member
             update_pairing deref_pairing_delegate compute_pairing_data discard
             ComputePairingData
             EnableEncryption FailWithUnexpectedEvent InitiatePairing
             OnIoCapabilityRequest OnIoCapabilityResponse
             OnUserConfirmationRequest OnUserPasskeyRequest
             OnUserPasskeyNotification OnSimplePairingComplete
             OnLinkKeyNotification OnAuthenticationComplete OnEncryptionChange
             deliver is_pairing is_initiator has_delegate handle
             with_state with_pairing with_link SetPairingDelegate
             with_initiator_callbacks with_local_iocap with_peer_iocap
             with_security_properties MakeInitiator MakeResponder
             peer_id_ link_ state_ current_pairing_ status_callback_
             pairing_delegate_ initiator initiator_callbacks local_iocap
             peer_iocap action expected_event authenticated
             security_properties hci.handle hci.ltk hci.ltk_type
             hci.StartEncryption_accepts hci.set_bredr_link_key sm.level
             sm.authenticated
             State.eqb PairingAction.eqb sm.SecurityLevel.eqb IOCapability.eqb
             negb andb orb Bool.eqb is_success] in *;
          rewrite ?SignalStatus_eq in *).

Ltac crush_machine :=
  run_machine; unfold signal_calls, queued_callbacks in *; run_machine;
  cbn [app map] in *; rewrite ?app_nil_r in *; try reflexivity; try congruence.


(** *** Decision tables *)

(** C1 (as amended).  Over the sixteen capability pairs the four decision
    functions agree with the tables of the design document, once the Action
    table has the clause of the code for a DisplayOnly responder: ComparePasskey
    if the initiator is DisplayYesNo, Automatic otherwise, DisplayPasskey being
    the answer in the cases that remain. *)
Theorem decision_functions_match_amended_tables
        (initiatorCap responderCap : IOCapability.t) :
  GetInitiatorPairingAction initiatorCap responderCap
  = Tables.ActionAmended initiatorCap responderCap
  /\ GetResponderPairingAction initiatorCap responderCap
     = Tables.ResponderActionAmended initiatorCap responderCap
  /\ GetExpectedEvent initiatorCap responderCap
     = Tables.code_of kUserConfirmationRequestEventCode
                      kUserPasskeyRequestEventCode
                      kUserPasskeyNotificationEventCode
                      (Tables.ExpectedEventOf initiatorCap responderCap)
  /\ IsPairingAuthenticated initiatorCap responderCap
     = Tables.Authenticated initiatorCap responderCap.
Proof.
  destruct initiatorCap, responderCap; repeat split; reflexivity.
Qed.

Lemma GetStateForPairingEvent_of_pairing_event (event_code : EventCode) :
  event_code = kUserConfirmationRequestEventCode
  \/ event_code = kUserPasskeyRequestEventCode
  \/ event_code = kUserPasskeyNotificationEventCode ->
  let st := GetStateForPairingEvent event_code in
  (st = State.kWaitUserConfirmationRequest
   \/ st = State.kWaitUserPasskeyRequest
   \/ st = State.kWaitUserPasskeyNotification)
  /\ st <> State.kFailed.
Proof.
  intros He. unfold GetStateForPairingEvent.
  destruct (Z.eqb_spec event_code kUserConfirmationRequestEventCode);
    [split; [auto | discriminate] |].
  destruct (Z.eqb_spec event_code kUserPasskeyRequestEventCode);
    [split; [auto | discriminate] |].
  destruct (Z.eqb_spec event_code kUserPasskeyNotificationEventCode);
    [split; [auto | discriminate] |].
  exfalso. destruct He as [He | [He | He]]; contradiction.
Qed.

Lemma GetExpectedEvent_is_a_pairing_event (local_cap peer_cap : IOCapability.t) :
  GetExpectedEvent local_cap peer_cap = kUserConfirmationRequestEventCode
  \/ GetExpectedEvent local_cap peer_cap = kUserPasskeyRequestEventCode
  \/ GetExpectedEvent local_cap peer_cap = kUserPasskeyNotificationEventCode.
Proof.
  destruct local_cap, peer_cap; cbn; auto.
Qed.

(** C5.  For every pair of IO capabilities, the state that
    [GetStateForPairingEvent] gives for the expected event is one of the three
    waiting states, and it is not [kFailed]. *)
Theorem expected_event_state_is_a_waiting_state
        (local_cap peer_cap : IOCapability.t) :
  let st := GetStateForPairingEvent (GetExpectedEvent local_cap peer_cap) in
  (st = State.kWaitUserConfirmationRequest
   \/ st = State.kWaitUserPasskeyRequest
   \/ st = State.kWaitUserPasskeyNotification)
  /\ st <> State.kFailed.
Proof.
  apply GetStateForPairingEvent_of_pairing_event,
        GetExpectedEvent_is_a_pairing_event.
Qed.

(** The [ZX_DEBUG_ASSERT] of [ComputePairingData] never fires: once both
    capabilities are known the pairing data is computed. *)
Lemma ComputePairingData_computes (p : Pairing) (local peer : IOCapability.t) :
  local_iocap p = Some local ->
  peer_iocap p = Some peer ->
  exists p',
    ComputePairingData p = Some p'
    /\ initiator_callbacks p' = initiator_callbacks p
    /\ action p'
       = Some (if initiator p then GetInitiatorPairingAction local peer
               else GetResponderPairingAction peer local)
    /\ expected_event p' = Some (GetExpectedEvent local peer)
    /\ authenticated p' = Some (IsPairingAuthenticated local peer).
Proof.
  intros Hl Hp. unfold ComputePairingData. rewrite Hl, Hp.
  destruct (GetStateForPairingEvent_of_pairing_event
              (GetExpectedEvent local peer)
              (GetExpectedEvent_is_a_pairing_event local peer)) as [_ Hnf].
  destruct (GetStateForPairingEvent (GetExpectedEvent local peer));
    try (eexists; repeat split; reflexivity).
  congruence.
Qed.

(** *** Signaling *)

(** C9.  [SignalStatus] discards the pairing, then calls the top-level
    callback and after it the queued callbacks in queue order; every call
    receives [status] and the handle the machine had on entry, and every
    callback finds [is_pairing()] false. *)
Theorem SignalStatus_detaches_then_notifies_in_order
        (status : Status) (ps : PairingState) :
  let after := with_pairing None ps in
  let parties := status_callback_ ps :: queued_callbacks ps in
  exists tr,
    SignalStatus status ps = Done tt after tr
    /\ tr = map (fun cb => CallStatus cb (handle ps) status after) parties
    /\ is_pairing after = false
    /\ status_calls tr = map (fun cb => (cb, handle ps, status)) parties
    /\ seen_is_pairing tr = map (fun _ => false) parties.
Proof.
  cbn zeta. eexists. split; [apply SignalStatus_eq |].
  unfold signal_calls. repeat split.
  - generalize (status_callback_ ps :: queued_callbacks ps) as l.
    induction l as [|cb l IH]; cbn; [reflexivity | now rewrite IH].
  - generalize (status_callback_ ps :: queued_callbacks ps) as l.
    induction l as [|cb l IH]; cbn; [reflexivity | now rewrite IH].
Qed.

(** *** Entry points *)

(** C8.  Without a pairing delegate, [InitiatePairing] calls the caller's
    callback with [kNotReady], answers [kDoNotSendAuthenticationRequest], and
    leaves the machine as it was: no pairing is created and the state is
    kept. *)
Theorem InitiatePairing_without_delegate
        (status_cb : StatusCallback) (ps : PairingState) :
  pairing_delegate_ ps = None ->
  InitiatePairing status_cb ps
  = Done InitiatorAction.kDoNotSendAuthenticationRequest ps
         [CallStatus status_cb (handle ps) (HostErr HostError.kNotReady) ps].
Proof.
  destruct ps as [peer link st cur top dlg]; cbn. intros ->. reflexivity.
Qed.

(** C10.  A user confirmation request outside
    [kWaitUserConfirmationRequest], and a user passkey request outside
    [kWaitUserPasskeyRequest], fail the negotiation with [kNotSupported]
    (state [kFailed], pairing discarded, every waiting party signaled) and
    then answer the controller's callback, with [false] and with no value. *)
Theorem unexpected_user_request_is_answered_negatively (ps : PairingState) :
  let failed := with_state State.kFailed ps in
  (forall numeric_value cb,
      state_ ps <> State.kWaitUserConfirmationRequest ->
      OnUserConfirmationRequest numeric_value cb ps
      = Done tt (with_pairing None failed)
             (signal_calls (HostErr HostError.kNotSupported) failed
              ++ [ReplyUserConfirmation cb false]))
  /\ (forall cb,
         state_ ps <> State.kWaitUserPasskeyRequest ->
         OnUserPasskeyRequest cb ps
         = Done tt (with_pairing None failed)
                (signal_calls (HostErr HostError.kNotSupported) failed
                 ++ [ReplyUserPasskey cb None])).
Proof.
  destruct ps as [peer link st cur top dlg]; cbn zeta.
  unfold signal_calls, queued_callbacks.
  split; intros; destruct st, cur; crush_machine.
Qed.

(** C6.  In [kWaitEncryption], an encryption change that succeeded with
    encryption enabled returns the machine to [kIdle] and signals success; one
    that succeeded with encryption disabled moves it to [kFailed] and signals
    [HostError::kFailed]; one that failed moves it to [kFailed] and signals
    the error it carries.  In every other state the call changes nothing and
    calls nothing. *)
Theorem OnEncryptionChange_transitions
        (status : Status) (enabled : bool) (ps : PairingState) :
  (state_ ps = State.kWaitEncryption ->
   is_success status = true ->
   OnEncryptionChange status true ps
   = Done tt (with_pairing None (with_state State.kIdle ps))
          (signal_calls status (with_state State.kIdle ps)))
  /\ (state_ ps = State.kWaitEncryption ->
      is_success status = true ->
      OnEncryptionChange status false ps
      = Done tt (with_pairing None (with_state State.kFailed ps))
             (signal_calls (HostErr HostError.kFailed)
                           (with_state State.kFailed ps)))
  /\ (state_ ps = State.kWaitEncryption ->
      is_success status = false ->
      OnEncryptionChange status enabled ps
      = Done tt (with_pairing None (with_state State.kFailed ps))
             (signal_calls status (with_state State.kFailed ps)))
  /\ (state_ ps <> State.kWaitEncryption ->
      OnEncryptionChange status enabled ps = Done tt ps []).
Proof.
  destruct ps as [peer link st cur top dlg].
  unfold signal_calls, queued_callbacks.
  repeat split; intros; destruct st, cur, status; crush_machine.
Qed.


(** *** Link key notification *)

(** C2 (as amended).  In [kWaitLinkKey], a link key of any type other than
    Debug Combination whose authenticated-ness differs from the flag stored in
    the current pairing moves the machine to [kFailed], signals
    [kInsufficientSecurity] to every waiting party, and leaves the link as it
    was: the key is not stored. *)
Theorem OnLinkKeyNotification_rejects_mismatched_key
        (link_key : UInt128) (key_type : LinkKeyType) (ps : PairingState)
        (p : Pairing) (expected : bool) :
  key_type <> kDebugCombination ->
  state_ ps = State.kWaitLinkKey ->
  current_pairing_ ps = Some p ->
  authenticated p = Some expected ->
  sm.authenticated (SecurityPropertiesOf key_type) <> expected ->
  let failed := with_state State.kFailed ps in
  exists ps' tr,
    OnLinkKeyNotification link_key key_type ps = Done tt ps' tr
    /\ ps' = with_pairing None failed
    /\ state_ ps' = State.kFailed
    /\ link_ ps' = link_ ps
    /\ tr = signal_calls (HostErr HostError.kInsufficientSecurity) failed
    /\ status_calls tr
       = map (fun cb => (cb, handle ps, HostErr HostError.kInsufficientSecurity))
             (status_callback_ ps :: initiator_callbacks p).
Proof.
  intros Hdebug Hst Hcur Hauth Hneq failed.
  assert (Hrun : OnLinkKeyNotification link_key key_type ps
                 = Done tt (with_pairing None failed)
                        (signal_calls (HostErr HostError.kInsufficientSecurity)
                                      failed)).
  { subst failed.
    destruct ps as [peer link st cur top dlg]; cbn in Hst, Hcur; subst st cur.
    destruct p as [ini cbs lio pio act ev pa sp]; cbn in Hauth; subst pa.
    apply Z.eqb_neq in Hdebug.
    destruct (SecurityPropertiesOf key_type) as [lv au] eqn:Hsec.
    cbn in Hneq.
    unfold OnLinkKeyNotification.
    unfold bind at 1. unfold ZX_ASSERT. rewrite Hdebug, Hsec.
    destruct lv, au, expected; try congruence; crush_machine. }
  exists (with_pairing None failed),
         (signal_calls (HostErr HostError.kInsufficientSecurity) failed).
  repeat split; try assumption.
  subst failed. unfold signal_calls, queued_callbacks.
  destruct ps as [peer link st cur top dlg]; cbn in Hcur |- *; subst cur.
  cbn. f_equal.
  induction (initiator_callbacks p) as [|cb l IH]; cbn; [reflexivity | now rewrite IH].
Qed.

(** The leading assertion: a Debug Combination key stops the machine in
    every state. *)
Lemma OnLinkKeyNotification_debug_combination_aborts
      (link_key : UInt128) (ps : PairingState) :
  OnLinkKeyNotification link_key kDebugCombination ps = Abort.
Proof.
  unfold OnLinkKeyNotification, bind, ZX_ASSERT.
  rewrite Z.eqb_refl. reflexivity.
Qed.

(** *** Encryption refused by the link *)

(** C3 (evaluation of the code).  When the link refuses to start encryption,
    [EnableEncryption] calls the top-level callback alone with
    [HostError::kFailed] and moves to [kFailed]; the pairing is kept, so the
    callbacks queued on it are not called.  [OnAuthenticationComplete] with a
    success code reaches this from [kInitiatorWaitAuthComplete]. *)
Theorem refused_encryption_leaves_queued_callbacks_waiting (ps : PairingState) :
  hci.StartEncryption_accepts (link_ ps) = false ->
  let tr := [LinkStartEncryption;
             CallStatus (status_callback_ ps) (handle ps)
                        (HostErr HostError.kFailed) ps] in
  EnableEncryption ps = Done tt (with_state State.kFailed ps) tr
  /\ (state_ ps = State.kInitiatorWaitAuthComplete ->
      is_initiator ps = true ->
      OnAuthenticationComplete kSuccess ps
      = Done tt (with_state State.kFailed ps) tr)
  /\ status_calls tr = [(status_callback_ ps, handle ps, HostErr HostError.kFailed)]
  /\ current_pairing_ (with_state State.kFailed ps) = current_pairing_ ps.
Proof.
  destruct ps as [peer [h k kt acc] st cur top dlg]; cbn. intros ->.
  repeat split.
  intros -> Hinit. unfold OnAuthenticationComplete, StatusOfCode.
  rewrite Z.eqb_refl. destruct cur as [p|]; [| discriminate].
  cbn in Hinit. crush_machine. rewrite Hinit. reflexivity.
Qed.

(** *** IO capability request *)

(** C7 (evaluation of the code).  In [kInitiatorPairingStarted] with no
    delegate attached, [OnIoCapabilityRequest] stops on its assertion: nothing
    is signaled and no state is reached. *)
Theorem OnIoCapabilityRequest_initiator_without_delegate_aborts
        (ps : PairingState) :
  state_ ps = State.kInitiatorPairingStarted ->
  pairing_delegate_ ps = None ->
  OnIoCapabilityRequest ps = Abort.
Proof.
  destruct ps as [peer link st cur top dlg]; cbn. intros -> ->.
  destruct cur as [[[] cbs lio pio act ev pa sp]|]; crush_machine.
Qed.

(** The responder branch of the same function handles the missing delegate:
    it signals [kNotReady], returns to [kIdle] and answers no capability. *)
Lemma OnIoCapabilityRequest_responder_without_delegate
      (ps : PairingState) (p : Pairing) :
  state_ ps = State.kResponderWaitIoCapRequest ->
  current_pairing_ ps = Some p ->
  initiator p = false ->
  pairing_delegate_ ps = None ->
  OnIoCapabilityRequest ps
  = Done None (with_pairing None (with_state State.kIdle ps))
         (signal_calls (HostErr HostError.kNotReady) (with_state State.kIdle ps)).
Proof.
  destruct ps as [peer link st cur top dlg]; cbn. intros -> -> Hini ->.
  destruct p as [ini cbs lio pio act ev pa sp]; cbn in Hini; subst ini.
  crush_machine.
Qed.


(** *** Traces *)

Lemma status_calls_app (tr1 tr2 : list Effect) :
  status_calls (tr1 ++ tr2) = status_calls tr1 ++ status_calls tr2.
Proof.
  induction tr1 as [|e tr1 IH]; cbn; [reflexivity |].
  destruct e; cbn; rewrite IH; reflexivity.
Qed.

Lemma status_calls_signal_calls (status : Status) (ps : PairingState) :
  status_calls (signal_calls status ps)
  = map (fun cb => (cb, handle ps, status))
        (status_callback_ ps :: queued_callbacks ps).
Proof.
  unfold signal_calls.
  generalize (status_callback_ ps :: queued_callbacks ps) as l.
  induction l as [|cb l IH]; cbn; [reflexivity | now rewrite IH].
Qed.

(** *** One input at a time *)

Lemma Done_inj {A : Type} (a a' : A) (ps ps' : PairingState)
      (tr tr' : list Effect) :
  Done a ps tr = Done a' ps' tr' -> a = a' /\ ps = ps' /\ tr = tr'.
Proof. intros H. inversion H. auto. Qed.

Ltac break_innermost_match_in H :=
  match type of H with
  | context [match ?x with _ => _ end] =>
      lazymatch x with
      | context [match _ with _ => _ end] => fail
      | _ => destruct x eqn:?
      end
  end.

Ltac step_cases H :=
  repeat (run_machine; try discriminate H; try break_innermost_match_in H).







(** *** Initiating *)






(** ** Further properties of the decision functions *)

(** X1.  Both devices compute the same authenticated flag:
    [IsPairingAuthenticated] does not depend on which capability is the local
    one. *)
Theorem IsPairingAuthenticated_symmetric (local_cap peer_cap : IOCapability.t) :
  IsPairingAuthenticated local_cap peer_cap
  = IsPairingAuthenticated peer_cap local_cap.
Proof.
  destruct local_cap, peer_cap; reflexivity.
Qed.

(** X2.  The two devices expect matching events: when this device expects a
    passkey notification the peer expects a passkey request, and this device
    expects a user confirmation request exactly when the peer does. *)
Theorem expected_events_of_the_two_devices_match
        (local_cap peer_cap : IOCapability.t) :
  event_codes_distinct ->
  (GetExpectedEvent local_cap peer_cap = kUserPasskeyNotificationEventCode ->
   GetExpectedEvent peer_cap local_cap = kUserPasskeyRequestEventCode)
  /\ (GetExpectedEvent local_cap peer_cap = kUserConfirmationRequestEventCode
      <-> GetExpectedEvent peer_cap local_cap
          = kUserConfirmationRequestEventCode).
Proof.
  intros (H12 & H13 & H23).
  destruct local_cap, peer_cap; cbn; repeat split; intros; congruence.
Qed.

(** X3.  An authenticated pairing always involves a passkey: whichever role
    the local device has, its action is neither [kAutomatic] nor
    [kGetConsent]. *)
Theorem authenticated_pairing_uses_a_passkey
        (is_initiator : bool) (local_cap peer_cap : IOCapability.t) :
  IsPairingAuthenticated local_cap peer_cap = true ->
  let act := if is_initiator
             then GetInitiatorPairingAction local_cap peer_cap
             else GetResponderPairingAction peer_cap local_cap in
  act = PairingAction.kDisplayPasskey
  \/ act = PairingAction.kComparePasskey
  \/ act = PairingAction.kRequestPasskey.
Proof.
  destruct is_initiator, local_cap, peer_cap; cbn; intros H;
    try discriminate H; auto.
Qed.

(** X4.  The authentication requirements agree with the authenticated flag:
    a responder that requires MITM protection answers an initiator that
    required it too, and would itself require it as an initiator. *)
Theorem responder_requires_mitm_only_if_both_initiators_would
        (local_cap peer_cap : IOCapability.t) :
  GetResponderAuthRequirements local_cap peer_cap
  = AuthRequirements.kMITMGeneralBonding ->
  GetInitiatorAuthRequirements peer_cap = AuthRequirements.kMITMGeneralBonding
  /\ GetInitiatorAuthRequirements local_cap
     = AuthRequirements.kMITMGeneralBonding
  /\ IsPairingAuthenticated local_cap peer_cap = true.
Proof.
  destruct local_cap, peer_cap; cbn; intros H; try discriminate H; auto.
Qed.

(** X5.  [ToString] names every state, and no two states share a name. *)
Theorem ToString_injective (a b : State.t) :
  ToString a <> String.EmptyString
  /\ (ToString a = ToString b -> a = b).
Proof.
  split.
  - destruct a; discriminate.
  - destruct a, b; cbn; intros H; try reflexivity; discriminate H.
Qed.

(** ** Further properties of the entry points *)

(** X6.  In [kWaitLinkKey], a link key whose security level is
    [kNoSecurity] (a key of legacy pairing) is rejected whatever the pairing
    expected: the machine moves to [kFailed], signals [kInsufficientSecurity]
    to every waiting party and leaves the link without the key. *)
Theorem OnLinkKeyNotification_rejects_key_without_security
        (link_key : UInt128) (key_type : LinkKeyType) (ps : PairingState)
        (p : Pairing) :
  key_type <> kDebugCombination ->
  state_ ps = State.kWaitLinkKey ->
  current_pairing_ ps = Some p ->
  sm.level (SecurityPropertiesOf key_type) = sm.SecurityLevel.kNoSecurity ->
  OnLinkKeyNotification link_key key_type ps
  = Done tt (with_pairing None (with_state State.kFailed ps))
         (signal_calls (HostErr HostError.kInsufficientSecurity)
                       (with_state State.kFailed ps)).
Proof.
  intros Hdebug Hst Hcur Hlevel.
  destruct ps as [peer link st cur top dlg]; cbn in Hst, Hcur; subst st cur.
  destruct p as [ini cbs lio pio act ev pa sp].
  apply Z.eqb_neq in Hdebug.
  destruct (SecurityPropertiesOf key_type) as [lv au] eqn:Hsec.
  cbn in Hlevel. subst lv.
  unfold OnLinkKeyNotification.
  unfold bind at 1. unfold ZX_ASSERT. rewrite Hdebug, Hsec.
  crush_machine.
Qed.

(** X7.  Outside a pairing, in [kIdle], a Changed Combination key replaces
    the key of a link that has one, silently and without leaving [kIdle]; on
    a link that has no key it moves the machine to [kFailed] and signals
    [kInsufficientSecurity]. *)
Theorem OnLinkKeyNotification_changed_combination_when_idle
        (link_key : UInt128) (ps : PairingState) :
  kChangedCombination <> kDebugCombination ->
  state_ ps = State.kIdle ->
  (forall current, hci.ltk (link_ ps) = Some current ->
     OnLinkKeyNotification link_key kChangedCombination ps
     = Done tt
            (with_link (hci.set_bredr_link_key
                          {| hci.value := link_key; hci.rand := 0;
                             hci.ediv := 0 |}
                          kChangedCombination (link_ ps)) ps)
            [])
  /\ (hci.ltk (link_ ps) = None ->
      OnLinkKeyNotification link_key kChangedCombination ps
      = Done tt (with_pairing None (with_state State.kFailed ps))
             (signal_calls (HostErr HostError.kInsufficientSecurity)
                           (with_state State.kFailed ps))).
Proof.
  intros Hdebug Hst.
  destruct ps as [peer [h k kt acc] st cur top dlg]; cbn in Hst; subst st.
  apply Z.eqb_neq in Hdebug.
  split; cbn; intros; subst k;
    unfold OnLinkKeyNotification; unfold bind at 1; unfold ZX_ASSERT;
    rewrite Hdebug;
    cbv beta iota zeta delta [bind gets ret state_ State.eqb andb];
    rewrite Z.eqb_refl; destruct cur; crush_machine.
Qed.

(** X8.  In [kWaitLinkKey], a link key with some security whose
    authenticated-ness is the one the pairing expects is stored on the link
    with its type and recorded in the pairing.  An initiator then waits for
    the authentication to complete; a responder asks the link to start
    encryption and, the link accepting, waits for it.  Nobody is signaled. *)
Theorem OnLinkKeyNotification_accepts_matching_key
        (link_key : UInt128) (key_type : LinkKeyType) (ps : PairingState)
        (p : Pairing) :
  key_type <> kDebugCombination ->
  state_ ps = State.kWaitLinkKey ->
  current_pairing_ ps = Some p ->
  sm.level (SecurityPropertiesOf key_type) <> sm.SecurityLevel.kNoSecurity ->
  authenticated p = Some (sm.authenticated (SecurityPropertiesOf key_type)) ->
  let keyed :=
    with_link (hci.set_bredr_link_key
                 {| hci.value := link_key; hci.rand := 0; hci.ediv := 0 |}
                 key_type (link_ ps))
      (with_pairing
         (Some (with_security_properties (SecurityPropertiesOf key_type) p))
         ps) in
  (initiator p = true ->
   OnLinkKeyNotification link_key key_type ps
   = Done tt (with_state State.kInitiatorWaitAuthComplete keyed) [])
  /\ (initiator p = false ->
      hci.StartEncryption_accepts (link_ ps) = true ->
      OnLinkKeyNotification link_key key_type ps
      = Done tt (with_state State.kWaitEncryption keyed)
             [LinkStartEncryption]).
Proof.
  intros Hdebug Hst Hcur Hlevel Hauth.
  destruct ps as [peer [h k kt acc] st cur top dlg]; cbn in Hst, Hcur;
    subst st cur.
  destruct p as [ini cbs lio pio act ev pa sp]; cbn in Hauth; subst pa.
  apply Z.eqb_neq in Hdebug.
  destruct (SecurityPropertiesOf key_type) as [lv au] eqn:Hsec.
  cbn in Hlevel.
  split; cbn; intros; subst;
    unfold OnLinkKeyNotification; unfold bind at 1; unfold ZX_ASSERT;
    rewrite Hdebug, Hsec; destruct lv, au; try congruence; crush_machine.
Qed.

(** X9.  In [kWaitPairingComplete], a pairing that the controller reports
    failed is failed with the controller's status: the delegate, if one is
    attached, is told [HostError::kFailed], the machine moves to [kFailed]
    and every waiting party is signaled the controller's error.  A pairing
    reported successful is announced to the delegate and the machine waits
    for the link key, the pairing kept and nobody signaled. *)
Theorem OnSimplePairingComplete_transitions
        (status_code : StatusCode) (ps : PairingState) (p : Pairing) :
  state_ ps = State.kWaitPairingComplete ->
  current_pairing_ ps = Some p ->
  (status_code <> kSuccess ->
   OnSimplePairingComplete status_code ps
   = Done tt (with_pairing None (with_state State.kFailed ps))
          ((if has_delegate ps
            then [DelegateCompletePairing (peer_id_ ps)
                                          (HostErr HostError.kFailed)]
            else [])
           ++ signal_calls (ProtocolError status_code)
                           (with_state State.kFailed ps)))
  /\ (has_delegate ps = true ->
      OnSimplePairingComplete kSuccess ps
      = Done tt (with_state State.kWaitLinkKey ps)
             [DelegateCompletePairing (peer_id_ ps) Success]).
Proof.
  intros Hst Hcur.
  destruct ps as [peer link st cur top dlg]; cbn in Hst, Hcur; subst st cur.
  split.
  - intros Hcode. apply Z.eqb_neq in Hcode.
    unfold OnSimplePairingComplete, StatusOfCode. rewrite Hcode.
    destruct dlg; crush_machine.
  - cbn. intros Hd. unfold OnSimplePairingComplete, StatusOfCode.
    rewrite Z.eqb_refl. destruct dlg; [| discriminate]. crush_machine.
Qed.

(** X10.  An authentication that completes for an initiator, in
    [kInitiatorPairingStarted] (the peers already share a key) or in
    [kInitiatorWaitAuthComplete], either fails the negotiation with the
    controller's error, signaled to every waiting party, or asks the link to
    start encryption and, the link accepting, waits for it in
    [kWaitEncryption] with the pairing kept. *)
Theorem OnAuthenticationComplete_transitions
        (status_code : StatusCode) (ps : PairingState) :
  state_ ps = State.kInitiatorPairingStarted
  \/ state_ ps = State.kInitiatorWaitAuthComplete ->
  is_initiator ps = true ->
  (status_code <> kSuccess ->
   OnAuthenticationComplete status_code ps
   = Done tt (with_pairing None (with_state State.kFailed ps))
          (signal_calls (ProtocolError status_code)
                        (with_state State.kFailed ps)))
  /\ (hci.StartEncryption_accepts (link_ ps) = true ->
      OnAuthenticationComplete kSuccess ps
      = Done tt (with_state State.kWaitEncryption ps) [LinkStartEncryption]).
Proof.
  intros Hst Hini.
  destruct ps as [peer [h k kt acc] st cur top dlg]; cbn in Hst, Hini.
  destruct cur as [[ini cbs lio pio act ev pa sp]|]; [| discriminate].
  cbn in Hini; subst ini.
  split.
  - intros Hcode. apply Z.eqb_neq in Hcode.
    unfold OnAuthenticationComplete, StatusOfCode. rewrite Hcode.
    destruct Hst; subst st; crush_machine.
  - cbn. intros ->. unfold OnAuthenticationComplete, StatusOfCode.
    rewrite Z.eqb_refl. destruct Hst; subst st; crush_machine.
Qed.


(** X11.  In [kWaitUserConfirmationRequest], with a delegate, the request is
    routed by the action of the pairing and the machine waits for the pairing
    to complete: [kAutomatic] confirms at once without the delegate;
    [kDisplayPasskey] and [kComparePasskey] hand the value to the delegate for
    comparison; [kGetConsent] asks the delegate for consent; in these three
    cases the controller is answered only when the delegate answers.  The
    pairing is kept and nobody is signaled. *)
Theorem OnUserConfirmationRequest_routes_by_action
        (numeric_value : Z) (cb : UserConfirmationCallback)
        (ps : PairingState) (p : Pairing) (act : PairingAction.t) :
  state_ ps = State.kWaitUserConfirmationRequest ->
  current_pairing_ ps = Some p ->
  action p = Some act ->
  has_delegate ps = true ->
  act <> PairingAction.kRequestPasskey ->
  OnUserConfirmationRequest numeric_value cb ps
  = Done tt (with_state State.kWaitPairingComplete ps)
         [match act with
          | PairingAction.kAutomatic => ReplyUserConfirmation cb true
          | PairingAction.kGetConsent =>
              DelegateConfirmPairing (peer_id_ ps) (ConfirmThenReply cb)
          | _ =>
              DelegateDisplayPasskey (peer_id_ ps) numeric_value
                                     DisplayMethod.kComparison
                                     (ConfirmThenReply cb)
          end].
Proof.
  intros Hst Hcur Hact Hd Hne.
  destruct ps as [peer link st cur top [d|]]; cbn in Hst, Hcur, Hd;
    [| discriminate]; subst st cur.
  destruct p as [ini cbs lio pio a ev pa sp]; cbn in Hact; subst a.
  destruct act; try congruence; crush_machine.
Qed.

(** X12.  A passkey request in [kWaitUserPasskeyRequest] is handed to the
    delegate, and a passkey notification in [kWaitUserPasskeyNotification] is
    displayed by the delegate for entry on the peer, with a callback that
    cannot answer the controller; in both cases the machine waits for the
    pairing to complete, the pairing kept and nobody signaled. *)
Theorem passkey_events_are_handed_to_the_delegate
        (ps : PairingState) (p : Pairing) :
  current_pairing_ ps = Some p ->
  has_delegate ps = true ->
  (forall cb,
      state_ ps = State.kWaitUserPasskeyRequest ->
      action p = Some PairingAction.kRequestPasskey ->
      OnUserPasskeyRequest cb ps
      = Done tt (with_state State.kWaitPairingComplete ps)
             [DelegateRequestPasskey (peer_id_ ps) (PasskeyThenReply cb)])
  /\ (forall numeric_value,
         state_ ps = State.kWaitUserPasskeyNotification ->
         OnUserPasskeyNotification numeric_value ps
         = Done tt (with_state State.kWaitPairingComplete ps)
                [DelegateDisplayPasskey (peer_id_ ps) numeric_value
                                        DisplayMethod.kPeerEntry
                                        ConfirmLogOnly])
  /\ (forall alive confirm, run_confirm_cb ConfirmLogOnly alive confirm = []).
Proof.
  intros Hcur Hd.
  destruct ps as [peer link st cur top [d|]]; cbn in Hcur, Hd;
    [| discriminate]; subst cur.
  destruct p as [ini cbs lio pio a ev pa sp].
  repeat split; cbn; intros; subst; crush_machine.
Qed.

(** X13.  The answers of the delegate reach the controller at most once and
    only while the pairing they were asked for is alive.  A passkey that fits
    in 32 bits is forwarded unchanged, a negative one is forwarded as no
    value, and a confirmation is forwarded as given. *)
Theorem delegate_answers_are_forwarded_while_the_pairing_lives
        (cb_confirm : UserConfirmationCallback) (cb_passkey : UserPasskeyCallback)
        (confirm : bool) (passkey : Z) :
  run_confirm_cb (ConfirmThenReply cb_confirm) false confirm = []
  /\ run_passkey_cb (PasskeyThenReply cb_passkey) false passkey = []
  /\ run_confirm_cb (ConfirmThenReply cb_confirm) true confirm
     = [ReplyUserConfirmation cb_confirm confirm]
  /\ (0 <= passkey < 2 ^ 32 ->
      run_passkey_cb (PasskeyThenReply cb_passkey) true passkey
      = [ReplyUserPasskey cb_passkey (Some passkey)])
  /\ (passkey < 0 ->
      run_passkey_cb (PasskeyThenReply cb_passkey) true passkey
      = [ReplyUserPasskey cb_passkey None]).
Proof.
  split; [reflexivity |]. split; [reflexivity |]. split; [reflexivity |].
  split; cbn; intros H.
  - destruct (Z.leb_spec 0 passkey) as [_|Hneg]; [| exfalso; destruct H as [H _];
      apply (Z.lt_irrefl passkey), (Z.lt_le_trans _ 0); assumption ].
    rewrite Z.mod_small by exact H. reflexivity.
  - destruct (Z.leb_spec 0 passkey) as [Hpos|_]; [| reflexivity].
    exfalso. apply (Z.lt_irrefl passkey), (Z.lt_le_trans _ 0); assumption.
Qed.

(** X14.  [InitiatePairing] asks its caller to send the authentication
    request exactly when a delegate is attached and the machine is in
    [kIdle]; it then has created the initiator's pairing with that caller
    alone queued, moved to [kInitiatorPairingStarted] and called nothing. *)
Theorem InitiatePairing_sends_exactly_from_idle
        (status_cb : StatusCallback) (ps ps' : PairingState)
        (a : InitiatorAction.t) (tr : list Effect) :
  InitiatePairing status_cb ps = Done a ps' tr ->
  (a = InitiatorAction.kSendAuthenticationRequest
   <-> has_delegate ps = true /\ state_ ps = State.kIdle)
  /\ (a = InitiatorAction.kSendAuthenticationRequest ->
      ps' = with_state State.kInitiatorPairingStarted
              (with_pairing (Some (MakeInitiator status_cb)) ps)
      /\ tr = []).
Proof.
  destruct ps as [peer link st cur top dlg]. intros H.
  step_cases H; apply Done_inj in H; destruct H as (<- & <- & <-);
    cbn; repeat split; intros; try discriminate; try reflexivity;
    try (destruct H as [? ?]; congruence); try congruence.
Qed.

(** X15.  The capability exchange of an initiator.  From
    [kInitiatorPairingStarted], the IO capability request answers the
    delegate's capability converted for HCI, and the peer's IO capability
    response then fills the pairing from the decision functions, with the
    local device as initiator, and moves to the state of the expected event.
    Nothing is called and the queue is untouched. *)
Theorem initiator_capability_exchange
        (peer_cap : IOCapability.t) (ps : PairingState) (p : Pairing)
        (d : PairingDelegate) :
  state_ ps = State.kInitiatorPairingStarted ->
  current_pairing_ ps = Some p ->
  initiator p = true ->
  pairing_delegate_ ps = Some d ->
  let local_cap := IOCapabilityForHci (io_capability d) in
  exists ps1 ps2 p2,
    OnIoCapabilityRequest ps = Done (Some local_cap) ps1 []
    /\ state_ ps1 = State.kInitiatorWaitIoCapResponse
    /\ OnIoCapabilityResponse peer_cap ps1 = Done tt ps2 []
    /\ state_ ps2
       = GetStateForPairingEvent (GetExpectedEvent local_cap peer_cap)
    /\ current_pairing_ ps2 = Some p2
    /\ initiator p2 = true
    /\ initiator_callbacks p2 = initiator_callbacks p
    /\ action p2 = Some (GetInitiatorPairingAction local_cap peer_cap)
    /\ expected_event p2 = Some (GetExpectedEvent local_cap peer_cap)
    /\ authenticated p2 = Some (IsPairingAuthenticated local_cap peer_cap).
Proof.
  intros Hst Hcur Hini Hd local_cap.
  destruct ps as [peer link st cur top dlg]; cbn in Hst, Hcur, Hd;
    subst st cur dlg.
  destruct p as [ini cbs lio pio act ev pa sp]; cbn in Hini; subst ini.
  destruct (GetStateForPairingEvent_of_pairing_event
              (GetExpectedEvent local_cap peer_cap)
              (GetExpectedEvent_is_a_pairing_event local_cap peer_cap))
    as [_ Hnf].
  exists {| peer_id_ := peer; link_ := link;
            state_ := State.kInitiatorWaitIoCapResponse;
            current_pairing_ :=
              Some (with_local_iocap
                      local_cap
                      {| initiator := true; initiator_callbacks := cbs;
                         local_iocap := lio; peer_iocap := pio; action := act;
                         expected_event := ev; authenticated := pa;
                         security_properties := sp |});
            status_callback_ := top; pairing_delegate_ := Some d |}.
  exists {| peer_id_ := peer; link_ := link;
            state_ := GetStateForPairingEvent
                        (GetExpectedEvent local_cap peer_cap);
            current_pairing_ :=
              Some {| initiator := true; initiator_callbacks := cbs;
                      local_iocap := Some local_cap;
                      peer_iocap := Some peer_cap;
                      action :=
                        Some (GetInitiatorPairingAction local_cap peer_cap);
                      expected_event :=
                        Some (GetExpectedEvent local_cap peer_cap);
                      authenticated :=
                        Some (IsPairingAuthenticated local_cap peer_cap);
                      security_properties := sp |};
            status_callback_ := top; pairing_delegate_ := Some d |}.
  eexists.
  split; [reflexivity |]. split; [reflexivity |].
  split.
  - unfold OnIoCapabilityResponse. run_machine. fold local_cap.
    destruct (GetStateForPairingEvent (GetExpectedEvent local_cap peer_cap))
      eqn:Hstate; try (rewrite ?Hstate; reflexivity).
    congruence.
  - cbn. repeat split.
Qed.


(** X16.  The capability exchange of a responder.  In [kIdle], the peer's IO
    capability response creates a responder's pairing with nobody queued; the
    IO capability request that follows answers the delegate's capability
    converted for HCI, fills the pairing from the decision functions, with the
    peer as initiator, and moves to the state of the expected event.  Nothing
    is called. *)
Theorem responder_capability_exchange
        (peer_cap : IOCapability.t) (ps : PairingState) (d : PairingDelegate) :
  state_ ps = State.kIdle ->
  current_pairing_ ps = None ->
  pairing_delegate_ ps = Some d ->
  let local_cap := IOCapabilityForHci (io_capability d) in
  exists ps1 ps2 p2,
    OnIoCapabilityResponse peer_cap ps = Done tt ps1 []
    /\ state_ ps1 = State.kResponderWaitIoCapRequest
    /\ current_pairing_ ps1 = Some (MakeResponder peer_cap)
    /\ OnIoCapabilityRequest ps1 = Done (Some local_cap) ps2 []
    /\ state_ ps2
       = GetStateForPairingEvent (GetExpectedEvent local_cap peer_cap)
    /\ current_pairing_ ps2 = Some p2
    /\ initiator p2 = false
    /\ initiator_callbacks p2 = []
    /\ action p2 = Some (GetResponderPairingAction peer_cap local_cap)
    /\ expected_event p2 = Some (GetExpectedEvent local_cap peer_cap)
    /\ authenticated p2 = Some (IsPairingAuthenticated local_cap peer_cap).
Proof.
  intros Hst Hcur Hd local_cap.
  destruct ps as [peer link st cur top dlg]; cbn in Hst, Hcur, Hd;
    subst st cur dlg.
  destruct (GetStateForPairingEvent_of_pairing_event
              (GetExpectedEvent local_cap peer_cap)
              (GetExpectedEvent_is_a_pairing_event local_cap peer_cap))
    as [_ Hnf].
  exists {| peer_id_ := peer; link_ := link;
            state_ := State.kResponderWaitIoCapRequest;
            current_pairing_ := Some (MakeResponder peer_cap);
            status_callback_ := top; pairing_delegate_ := Some d |}.
  exists {| peer_id_ := peer; link_ := link;
            state_ := GetStateForPairingEvent
                        (GetExpectedEvent local_cap peer_cap);
            current_pairing_ :=
              Some {| initiator := false; initiator_callbacks := [];
                      local_iocap := Some local_cap;
                      peer_iocap := Some peer_cap;
                      action :=
                        Some (GetResponderPairingAction peer_cap local_cap);
                      expected_event :=
                        Some (GetExpectedEvent local_cap peer_cap);
                      authenticated :=
                        Some (IsPairingAuthenticated local_cap peer_cap);
                      security_properties := None |};
            status_callback_ := top; pairing_delegate_ := Some d |}.
  eexists.
  split; [reflexivity |]. split; [reflexivity |]. split; [reflexivity |].
  split.
  - unfold OnIoCapabilityRequest. run_machine. fold local_cap.
    destruct (GetStateForPairingEvent (GetExpectedEvent local_cap peer_cap))
      eqn:Hstate; try (rewrite ?Hstate; reflexivity).
    congruence.
  - cbn. repeat split.
Qed.


(** ** Properties of every input *)

Lemma GetStateForPairingEvent_codes :
  event_codes_distinct ->
  GetStateForPairingEvent kUserConfirmationRequestEventCode
  = State.kWaitUserConfirmationRequest
  /\ GetStateForPairingEvent kUserPasskeyRequestEventCode
     = State.kWaitUserPasskeyRequest
  /\ GetStateForPairingEvent kUserPasskeyNotificationEventCode
     = State.kWaitUserPasskeyNotification.
Proof.
  intros (H12 & H13 & H23). unfold GetStateForPairingEvent.
  rewrite !Z.eqb_refl.
  destruct (Z.eqb_spec kUserPasskeyRequestEventCode
                       kUserConfirmationRequestEventCode); [congruence |].
  destruct (Z.eqb_spec kUserPasskeyNotificationEventCode
                       kUserConfirmationRequestEventCode); [congruence |].
  destruct (Z.eqb_spec kUserPasskeyNotificationEventCode
                       kUserPasskeyRequestEventCode); [congruence |].
  auto.
Qed.

(** In the state of the expected event the action is the one the entry point
    of that event asserts. *)
Lemma action_in_waiting_state
      (p : Pairing) (local peer : IOCapability.t) (st : State.t) :
  event_codes_distinct ->
  pairing_data_computed p local peer ->
  st = GetStateForPairingEvent (GetExpectedEvent local peer) ->
  (st = State.kWaitUserPasskeyRequest ->
   action p = Some PairingAction.kRequestPasskey)
  /\ (st = State.kWaitUserConfirmationRequest ->
      exists act, action p = Some act /\ act <> PairingAction.kRequestPasskey).
Proof.
  intros Hd (_ & _ & Hact & _ & _) ->.
  destruct (GetStateForPairingEvent_codes Hd) as (H1 & H2 & H3).
  rewrite Hact.
  destruct (initiator p), local, peer; cbn; rewrite ?H1, ?H2, ?H3;
    split; intros H; try discriminate H; try reflexivity;
    eexists; (split; [reflexivity | discriminate]).
Qed.

Ltac destruct_consistent H :=
  repeat match type of H with
         | exists _, _ => let x := fresh "x" in destruct H as [x H]
         | _ /\ _ => let H1 := fresh "Hc" in destruct H as [H1 H]
         end.

Ltac use_expected_state :=
  match goal with
  | Heq : GetStateForPairingEvent (GetExpectedEvent ?l ?r) = _ |- _ =>
      let Hs := fresh "Hs" in
      rewrite ?Heq;
      destruct (proj1 (GetStateForPairingEvent_of_pairing_event
                         _ (GetExpectedEvent_is_a_pairing_event l r)))
        as [Hs | [Hs | Hs]];
      rewrite Heq in Hs; try discriminate Hs
  end.

Ltac solve_consistent :=
  try use_expected_state;
  cbn; unfold pairing_data_computed; cbn;
  repeat first [ reflexivity | eassumption | symmetry; eassumption
               | progress cbn | f_equal; symmetry; eassumption
               | exact I | eexists | split ].

Lemma deliver_keeps_consistent
      (i : Input) (ps ps' : PairingState) (tr : list Effect) :
  consistent ps ->
  deliver i ps = Done tt ps' tr ->
  consistent ps'.
Proof.
  destruct ps as [peer link st cur top dlg]. unfold consistent at 1.
  intros Hwf H.
  destruct st; cbn in Hwf; unfold pairing_data_computed in Hwf;
    destruct_consistent Hwf; subst;
    try match goal with
        | p : Pairing |- _ =>
            destruct p as [ini cbs lio pio act ev pa sp]; cbn in *; subst
        end;
    destruct i; step_cases H;
    apply Done_inj in H; destruct H as (_ & <- & _);
    unfold consistent; solve_consistent.
Qed.

Lemma reachable_consistent (ps : PairingState) :
  reachable ps -> consistent ps.
Proof.
  induction 1 as [peer link cb | d ps _ IH | l ps _ IH | i ps ps' tr _ IH H].
  - reflexivity.
  - exact IH.
  - exact IH.
  - exact (deliver_keeps_consistent i ps ps' tr IH H).
Qed.


Ltac use_action_in_waiting_state Hd :=
  try match goal with
      | Hc : pairing_data_computed ?p ?l ?r,
        Hs : _ = GetStateForPairingEvent (GetExpectedEvent ?l ?r) |- _ =>
          let Hupr := fresh "Hupr" in
          let Hucr := fresh "Hucr" in
          destruct (action_in_waiting_state p l r _ Hd Hc Hs) as [Hupr Hucr];
          try specialize (Hupr eq_refl);
          try (specialize (Hucr eq_refl);
               let a := fresh "a" in
               let Ha := fresh "Ha" in
               let Hne := fresh "Hne" in
               destruct Hucr as (a & Ha & Hne))
      end.

Lemma consistent_machine_aborts_exactly_when (i : Input) (ps : PairingState) :
  event_codes_distinct ->
  consistent ps ->
  deliver i ps = Abort <-> aborts i ps = true.
Proof.
  intros Hd Hwf.
  destruct ps as [peer link st cur top dlg]. unfold consistent in Hwf.
  destruct st; cbn in Hwf; destruct_consistent Hwf;
    use_action_in_waiting_state Hd; clear Hd;
    unfold pairing_data_computed in *;
    repeat match goal with
           | H : _ /\ _ |- _ => destruct H
           end;
    subst;
    try match goal with
        | p : Pairing |- _ =>
            destruct p as [ini cbs lio pio act ev pa sp]; cbn in *; subst
        end;
    unfold aborts;
    destruct (deliver i _) as [u ps' tr |] eqn:H;
    unfold deliver, OnSimplePairingComplete, OnAuthenticationComplete,
           StatusOfCode in H;
    destruct i; step_cases H;
    split; intros; try reflexivity; try discriminate; try congruence;
    solve [exfalso; use_expected_state].
Qed.

(** X17.  Every machine the constructor made and the entry points drove is
    consistent: [kIdle] holds no pairing; every state of a negotiation holds
    one, of the role the state names, whose capabilities, action, expected
    event and authenticated flag are set as far as the state requires and are
    those of the decision functions; a state that waits for a user event is
    the state of the expected event of its pairing. *)
Theorem reachable_machine_is_consistent (ps : PairingState) :
  reachable ps -> consistent ps.
Proof.
  apply reachable_consistent.
Qed.

(** X18.  On such a machine the assertions of the entry points hold, except
    those on the key type and on the delegate: an input stops the process
    exactly when it is a Debug Combination link key, or when no delegate is
    attached and the input is the event its state waits for, among the IO
    capability request of an initiator, the three user events and a
    successful pairing completion. *)
Theorem reachable_machine_aborts_exactly_when (i : Input) (ps : PairingState) :
  event_codes_distinct ->
  reachable ps ->
  deliver i ps = Abort <-> aborts i ps = true.
Proof.
  intros Hd Hr.
  apply consistent_machine_aborts_exactly_when;
    [exact Hd | apply reachable_consistent; exact Hr].
Qed.


(** X19.  An input that is not expected in the current state, a Debug
    Combination key apart, fails the negotiation the same way whatever the
    input: the machine moves to [kFailed], discards the pairing and signals
    [kNotSupported] to the top-level callback and to every queued caller. *)
Theorem unexpected_input_fails_with_not_supported
        (i : Input) (ps : PairingState) :
  expected_in i (state_ ps) = false ->
  aborts i ps = false ->
  exists tr,
    deliver i ps = Done tt (with_pairing None (with_state State.kFailed ps)) tr
    /\ status_calls tr
       = map (fun cb => (cb, handle ps, HostErr HostError.kNotSupported))
             (status_callback_ ps :: queued_callbacks ps).
Proof.
  destruct ps as [peer link st cur top dlg]. unfold aborts, expected_in. cbn.
  intros Hexp Hab.
  destruct (deliver i _) as [[] ps' tr |] eqn:H;
    destruct i; step_cases H;
    try discriminate Hexp; try discriminate Hab;
    apply Done_inj in H; destruct H as (_ & <- & <-);
    eexists; (split; [reflexivity |]);
    rewrite ?status_calls_app, ?status_calls_signal_calls; cbn;
    rewrite ?app_nil_r; reflexivity.
Qed.

Lemma deliver_all_cons (i : Input) (inputs : list Input)
      (ps ps' : PairingState) (tr : list Effect) :
  deliver_all (i :: inputs) ps = Done tt ps' tr ->
  exists ps1 tr1 tr2,
    deliver i ps = Done tt ps1 tr1
    /\ deliver_all inputs ps1 = Done tt ps' tr2
    /\ tr = tr1 ++ tr2.
Proof.
  unfold deliver_all. cbn [for_each]. unfold bind at 1.
  destruct (deliver i ps) as [[] ps1 tr1 |]; [| discriminate].
  destruct (for_each inputs deliver ps1) as [[] ps2 tr2 |] eqn:Hrest;
    [| discriminate].
  intros H. apply Done_inj in H. destruct H as (_ & <- & <-).
  exists ps1, tr1, tr2. auto.
Qed.

Lemma deliver_keeps_failed
      (i : Input) (ps ps' : PairingState) (tr : list Effect) :
  state_ ps = State.kFailed ->
  deliver i ps = Done tt ps' tr ->
  state_ ps' = State.kFailed.
Proof.
  destruct ps as [peer link st cur top dlg]; cbn. intros -> H.
  destruct i; step_cases H;
    apply Done_inj in H; destruct H as (_ & <- & _); reflexivity.
Qed.

(** X20.  [kFailed] is left by no input: whatever sequence of inputs a failed
    machine receives, it is still in [kFailed] afterwards. *)
Theorem failed_state_is_never_left
        (inputs : list Input) (ps ps' : PairingState) (tr : list Effect) :
  state_ ps = State.kFailed ->
  deliver_all inputs ps = Done tt ps' tr ->
  state_ ps' = State.kFailed.
Proof.
  revert ps tr. induction inputs as [|i inputs IH]; intros ps tr Hst H.
  - cbv in H. apply Done_inj in H. destruct H as (_ & <- & _). exact Hst.
  - apply deliver_all_cons in H. destruct H as (ps1 & tr1 & tr2 & H1 & H2 & _).
    apply (IH ps1 tr2); [| exact H2].
    apply (deliver_keeps_failed i ps ps1 tr1 Hst H1).
Qed.

(** X21.  No input touches what the machine was constructed with beside the
    link, or the delegate: the peer id, the top-level callback and the
    delegate are the same after every input. *)
Theorem deliver_keeps_the_construction_parameters
        (i : Input) (ps ps' : PairingState) (tr : list Effect) :
  deliver i ps = Done tt ps' tr ->
  peer_id_ ps' = peer_id_ ps
  /\ status_callback_ ps' = status_callback_ ps
  /\ pairing_delegate_ ps' = pairing_delegate_ ps.
Proof.
  destruct ps as [peer link st cur top dlg]. intros H.
  destruct i; step_cases H;
    apply Done_inj in H; destruct H as (_ & <- & _);
    repeat split; reflexivity.
Qed.

(** X22.  A link key is stored on the link in two cases only, and it is the
    key of the notification with its type: a Changed Combination key in
    [kIdle] on a link that has a key already; or, in [kWaitLinkKey], a key
    with some security whose authenticated-ness is the one the current
    pairing expects.  No other input changes the link. *)
Theorem link_changes_only_for_an_acceptable_key
        (i : Input) (ps ps' : PairingState) (tr : list Effect) :
  deliver i ps = Done tt ps' tr ->
  link_ ps' = link_ ps
  \/ exists link_key key_type,
      i = InLinkKeyNotification link_key key_type
      /\ link_ ps'
         = hci.set_bredr_link_key
             {| hci.value := link_key; hci.rand := 0; hci.ediv := 0 |}
             key_type (link_ ps)
      /\ ((state_ ps = State.kIdle
           /\ key_type = kChangedCombination
           /\ hci.ltk (link_ ps) <> None)
          \/ (state_ ps = State.kWaitLinkKey
              /\ sm.level (SecurityPropertiesOf key_type)
                 <> sm.SecurityLevel.kNoSecurity
              /\ exists p,
                  current_pairing_ ps = Some p
                  /\ authenticated p
                     = Some (sm.authenticated
                               (SecurityPropertiesOf key_type)))).
Proof.
  destruct ps as [peer [h k kt acc] st cur top dlg]. intros H.
  destruct i;
    try (left; step_cases H; apply Done_inj in H; destruct H as (_ & <- & _);
         reflexivity).
  destruct (SecurityPropertiesOf key_type) as [lv au] eqn:Hsec.
  unfold deliver, OnLinkKeyNotification in H. rewrite Hsec in H.
  step_cases H; apply Done_inj in H; destruct H as (_ & <- & _);
    try (left; reflexivity);
    right; exists link_key, key_type;
    (split; [reflexivity |]); (split; [reflexivity |]);
    rewrite ?Hsec; cbn;
    first [ solve [left; split; [reflexivity |];
                   split; [apply Z.eqb_eq; assumption | cbn; discriminate]]
          | solve [right; split; [reflexivity |];
                   split; [cbn; discriminate |];
                   eexists; split; reflexivity] ].
Qed.


Lemma In_map_status_call (cb : StatusCallback) (h h0 : ConnectionHandle)
      (s s0 : Status) (l : list StatusCallback) :
  In (cb, h, s) (map (fun c => (c, h0, s0)) l) -> h = h0 /\ s = s0.
Proof.
  intros H. apply in_map_iff in H. destruct H as (c & Heq & _).
  inversion Heq. auto.
Qed.

(** The status callbacks of a trace in closed form, and the cases of a
    membership in them. *)
Ltac status_calls_in Hin :=
  rewrite ?status_calls_app, ?status_calls_signal_calls in Hin; cbn in Hin;
  repeat match type of Hin with
         | _ \/ _ => destruct Hin as [Hin | Hin]
         | In _ (_ ++ _) => apply in_app_or in Hin
         | In _ (map _ _) =>
             apply In_map_status_call in Hin; destruct Hin; subst
         | In _ [] => destruct Hin
         | False => destruct Hin
         | (_, _, _) = (_, _, _) => inversion Hin; subst; clear Hin
         end.

(** X23.  One input signals one outcome: all the status callbacks an input
    invokes receive the handle of the link and the same status. *)
Theorem deliver_signals_one_status
        (i : Input) (ps ps' : PairingState) (tr : list Effect) :
  deliver i ps = Done tt ps' tr ->
  exists status,
    forall cb h s,
      In (cb, h, s) (status_calls tr) -> h = handle ps /\ s = status.
Proof.
  destruct ps as [peer [hd k kt acc] st cur top dlg]. intros H.
  destruct i; step_cases H;
    apply Done_inj in H; destruct H as (_ & _ & <-);
    first
      [ solve [ exists Success; intros cb0 h0 s0 Hin; status_calls_in Hin;
                split; reflexivity ]
      | solve [ eexists; intros cb0 h0 s0 Hin; status_calls_in Hin;
                split; reflexivity ] ].
Qed.

(** X24.  Success is signaled for one reason only: a callback receives a
    success status only from an encryption change that reports success with
    encryption enabled, received in [kWaitEncryption]; the machine is then
    back in [kIdle] without a pairing. *)
Theorem success_is_signaled_only_when_encryption_is_enabled
        (i : Input) (ps ps' : PairingState) (tr : list Effect)
        (cb : StatusCallback) (h : ConnectionHandle) (s : Status) :
  deliver i ps = Done tt ps' tr ->
  In (cb, h, s) (status_calls tr) ->
  is_success s = true ->
  state_ ps = State.kWaitEncryption
  /\ state_ ps' = State.kIdle
  /\ current_pairing_ ps' = None
  /\ exists status,
      i = InEncryptionChange status true /\ is_success status = true.
Proof.
  destruct ps as [peer [hd k kt acc] st cur top dlg]. intros H Hin Hs.
  unfold deliver, OnSimplePairingComplete, OnAuthenticationComplete,
         StatusOfCode in H.
  destruct i; step_cases H;
    apply Done_inj in H; destruct H as (_ & <- & <-);
    status_calls_in Hin; try discriminate Hs;
    repeat split; eexists; split; reflexivity.
Qed.

(** X25.  A pairing begins in [kIdle] only, and in two ways: a caller
    initiates it while a delegate is attached, which creates an initiator's
    pairing with that caller queued, or the peer's IO capability response
    arrives, which creates a responder's pairing for that capability. *)
Theorem pairing_is_created_only_in_idle
        (i : Input) (ps ps' : PairingState) (tr : list Effect) (p' : Pairing) :
  current_pairing_ ps = None ->
  deliver i ps = Done tt ps' tr ->
  current_pairing_ ps' = Some p' ->
  state_ ps = State.kIdle
  /\ ((exists status_cb,
          i = InInitiatePairing status_cb
          /\ has_delegate ps = true
          /\ p' = MakeInitiator status_cb
          /\ state_ ps' = State.kInitiatorPairingStarted)
      \/ (exists peer_cap,
             i = InIoCapabilityResponse peer_cap
             /\ p' = MakeResponder peer_cap
             /\ state_ ps' = State.kResponderWaitIoCapRequest)).
Proof.
  destruct ps as [peer link st cur top dlg]; cbn. intros -> H Hsome.
  destruct i; step_cases H;
    apply Done_inj in H; destruct H as (_ & <- & _);
    cbn in Hsome; try discriminate Hsome;
    injection Hsome as <-;
    (split; [reflexivity |]);
    first [ solve [left; eexists; repeat split; reflexivity]
          | solve [right; eexists; repeat split; reflexivity] ].
Qed.

(** X26.  An input that leaves the pairing in place leaves its role as it
    was, and its queue too, but for a caller of [InitiatePairing] with a
    delegate attached, who is added at the end. *)
Theorem pairing_keeps_its_role_and_queue
        (i : Input) (ps ps' : PairingState) (tr : list Effect)
        (p p' : Pairing) :
  current_pairing_ ps = Some p ->
  deliver i ps = Done tt ps' tr ->
  current_pairing_ ps' = Some p' ->
  initiator p' = initiator p
  /\ initiator_callbacks p'
     = initiator_callbacks p
       ++ match i with
          | InInitiatePairing status_cb =>
              if has_delegate ps then [status_cb] else []
          | _ => []
          end.
Proof.
  destruct ps as [peer link st cur top dlg]; cbn. intros -> H Hsome.
  destruct p as [ini cbs lio pio act ev pa sp].
  destruct i; step_cases H;
    apply Done_inj in H; destruct H as (_ & <- & _);
    cbn in Hsome; try discriminate Hsome;
    injection Hsome as <-; cbn; rewrite ?app_nil_r; split; reflexivity.
Qed.

(** X27.  The machine starts to wait for encryption only after the link
    accepted to start it: [kWaitEncryption] is entered only by a successful
    authentication completion or a link key notification, the request to the
    link being the only outward call, the link having accepted it and the
    pairing being kept. *)
Theorem encryption_is_awaited_only_after_the_link_accepted
        (i : Input) (ps ps' : PairingState) (tr : list Effect) :
  state_ ps <> State.kWaitEncryption ->
  deliver i ps = Done tt ps' tr ->
  state_ ps' = State.kWaitEncryption ->
  hci.StartEncryption_accepts (link_ ps) = true
  /\ tr = [LinkStartEncryption]
  /\ is_pairing ps' = true
  /\ (i = InAuthenticationComplete kSuccess
      \/ exists link_key key_type,
          i = InLinkKeyNotification link_key key_type).
Proof.
  destruct ps as [peer [hd k kt acc] st cur top dlg]; cbn.
  intros Hne H Hst.
  unfold deliver, OnSimplePairingComplete, OnAuthenticationComplete,
         StatusOfCode in H.
  destruct i; step_cases H;
    apply Done_inj in H; destruct H as (_ & <- & <-);
    cbn in Hst; try discriminate Hst; try congruence;
    try solve [exfalso; use_expected_state];
    (split; [reflexivity |]); (split; [reflexivity |]);
    (split; [reflexivity |]);
    first [ solve [left; f_equal; apply Z.eqb_eq; assumption]
          | solve [right; eexists; eexists; reflexivity] ].
Qed.


(** X28.  A responder without a delegate declines the pairing: in
    [kResponderWaitIoCapRequest] with no delegate attached, the IO capability
    request answers no capability, signals [kNotReady] to the top-level
    callback and to every queued caller, and returns the machine to [kIdle]
    without a pairing, ready for another negotiation. *)
Theorem responder_without_delegate_declines_the_pairing
        (ps : PairingState) (p : Pairing) :
  state_ ps = State.kResponderWaitIoCapRequest ->
  current_pairing_ ps = Some p ->
  initiator p = false ->
  pairing_delegate_ ps = None ->
  exists ps' tr,
    OnIoCapabilityRequest ps = Done None ps' tr
    /\ state_ ps' = State.kIdle
    /\ current_pairing_ ps' = None
    /\ link_ ps' = link_ ps
    /\ status_calls tr
       = map (fun cb => (cb, handle ps, HostErr HostError.kNotReady))
             (status_callback_ ps :: initiator_callbacks p).
Proof.
  intros Hst Hcur Hini Hd.
  rewrite (OnIoCapabilityRequest_responder_without_delegate ps p Hst Hcur Hini Hd).
  eexists. eexists. split; [reflexivity |].
  rewrite status_calls_signal_calls.
  destruct ps as [peer link st cur top dlg]; cbn in Hcur |- *; subst cur.
  repeat split.
Qed.

(** X29.  [InitiatePairing] raises its errors to its caller alone: the only
    callback it can invoke is the caller's own, with [kNotReady] when no
    delegate is attached and with [kCanceled] in [kFailed] when no pairing is
    held; it then leaves the machine as it was.  In every other case it
    invokes nothing. *)
Theorem InitiatePairing_signals_only_its_caller
        (status_cb : StatusCallback) (ps ps' : PairingState)
        (a : InitiatorAction.t) (tr : list Effect) :
  InitiatePairing status_cb ps = Done a ps' tr ->
  tr = []
  \/ (ps' = ps
      /\ a = InitiatorAction.kDoNotSendAuthenticationRequest
      /\ ((has_delegate ps = false
           /\ tr = [CallStatus status_cb (handle ps)
                               (HostErr HostError.kNotReady) ps])
          \/ (has_delegate ps = true
              /\ state_ ps = State.kFailed
              /\ current_pairing_ ps = None
              /\ tr = [CallStatus status_cb (handle ps)
                                  (HostErr HostError.kCanceled) ps]))).
Proof.
  destruct ps as [peer link st cur top dlg]. intros H.
  step_cases H; apply Done_inj in H; destruct H as (<- & <- & <-);
    first [ solve [left; reflexivity]
          | solve [right; split; [reflexivity |]; split; [reflexivity |];
                   left; split; reflexivity]
          | solve [right; split; [reflexivity |]; split; [reflexivity |];
                   right; repeat split; reflexivity] ].
Qed.

(** ** Coalesced callers *)






End Hci.

(** ** The model run on concrete machines *)

(** The sixteen answers of [GetInitiatorPairingAction], rows by initiator and
    columns by responder, both in the order NoInputNoOutput, DisplayOnly,
    KeyboardOnly, DisplayYesNo. *)
Example GetInitiatorPairingAction_table :
  let caps := [IOCapability.kNoInputNoOutput; IOCapability.kDisplayOnly;
               IOCapability.kKeyboardOnly; IOCapability.kDisplayYesNo] in
  map (fun i => map (GetInitiatorPairingAction i) caps) caps
  = [[PairingAction.kAutomatic; PairingAction.kAutomatic;
      PairingAction.kAutomatic; PairingAction.kAutomatic];
     [PairingAction.kAutomatic; PairingAction.kAutomatic;
      PairingAction.kDisplayPasskey; PairingAction.kDisplayPasskey];
     [PairingAction.kAutomatic; PairingAction.kRequestPasskey;
      PairingAction.kRequestPasskey; PairingAction.kRequestPasskey];
     [PairingAction.kGetConsent; PairingAction.kComparePasskey;
      PairingAction.kDisplayPasskey; PairingAction.kDisplayPasskey]].
Proof. reflexivity. Qed.

(** The responder round trip of the design document: the peer announces
    DisplayYesNo, the delegate has DisplayYesNo, the user confirmation is
    handed to the delegate, pairing completes, an authenticated key arrives
    and is stored, the link accepts encryption and reports it enabled.  The
    machine ends in [kIdle] without a pairing and success is signaled once,
    to the top-level callback. *)
Example responder_round_trip :
  let fresh := SetPairingDelegate (Some sample_delegate)
                 (make_PairingState 1 (sample_link true) 0%nat) in
  exists ps tr,
    (OnIoCapabilityResponse (constants := core_spec) IOCapability.kDisplayYesNo ;;
     OnIoCapabilityRequest (constants := core_spec) ;;
     OnUserConfirmationRequest 123456 5%nat ;;
     OnSimplePairingComplete (constants := core_spec) CoreSpec.kSuccess ;;
     OnLinkKeyNotification (constants := core_spec) 42
                           CoreSpec.kAuthenticatedCombination192 ;;
     OnEncryptionChange Success true) fresh
    = Done tt ps tr
    /\ state_ ps = State.kIdle
    /\ current_pairing_ ps = None
    /\ hci.ltk (link_ ps) = Some {| hci.value := 42; hci.rand := 0; hci.ediv := 0 |}
    /\ status_calls tr = [(0%nat, 0x0BAD, Success)]
    /\ tr = [DelegateDisplayPasskey 1 123456 DisplayMethod.kComparison
                                    (ConfirmThenReply 5%nat);
             DelegateCompletePairing 1 Success;
             LinkStartEncryption;
             CallStatus 0%nat 0x0BAD Success ps].
Proof.
  cbn zeta. eexists. eexists. repeat split.
Qed.

(** C1, the table as the design document words it.  With a DisplayOnly
    initiator and a DisplayOnly responder the code answers [kAutomatic], where
    the worded table, none of its earlier clauses applying, answers
    [kDisplayPasskey]. *)
Lemma action_table_differs_for_two_display_only_devices :
  GetInitiatorPairingAction IOCapability.kDisplayOnly IOCapability.kDisplayOnly
  = PairingAction.kAutomatic
  /\ Tables.Action IOCapability.kDisplayOnly IOCapability.kDisplayOnly
     = PairingAction.kDisplayPasskey
  /\ ~ (forall initiatorCap responderCap,
           GetInitiatorPairingAction initiatorCap responderCap
           = Tables.Action initiatorCap responderCap).
Proof.
  repeat split.
  intros H.
  specialize (H IOCapability.kDisplayOnly IOCapability.kDisplayOnly).
  discriminate H.
Qed.

(** C2, the key type the claim does not except.  In [kWaitLinkKey], with a
    pairing that expects an authenticated key, a Debug Combination key (which
    is not authenticated) stops the machine on the leading assertion: no
    state is reached and nothing is signaled. *)
Lemma debug_combination_key_aborts_instead_of_failing :
  let ps := sample_machine State.kWaitLinkKey
                           (Some (sample_pairing [1; 2]%nat))
                           (Some sample_delegate) true in
  state_ ps = State.kWaitLinkKey
  /\ (exists p, current_pairing_ ps = Some p
                /\ authenticated p = Some true)
  /\ sm.authenticated (CoreSpec.SecurityPropertiesOf CoreSpec.kDebugCombination)
     = false
  /\ OnLinkKeyNotification (constants := core_spec) 0 CoreSpec.kDebugCombination ps
     = Abort
  /\ ~ (exists ps' tr,
           OnLinkKeyNotification (constants := core_spec) 0
                                 CoreSpec.kDebugCombination ps
           = Done tt ps' tr).
Proof.
  cbn zeta. repeat split.
  - eexists. split; reflexivity.
  - intros (ps' & tr & H). discriminate H.
Qed.

Lemma OnLinkKeyNotification_rejects_mismatched_key_witness :
  let ps := sample_machine State.kWaitLinkKey
                           (Some (sample_pairing [1; 2]%nat))
                           (Some sample_delegate) true in
  exists ps' tr,
    OnLinkKeyNotification (constants := core_spec) 0
                          CoreSpec.kUnauthenticatedCombination192 ps
    = Done tt ps' tr
    /\ ps' = with_pairing None (with_state State.kFailed ps)
    /\ state_ ps' = State.kFailed
    /\ link_ ps' = link_ ps
    /\ tr = signal_calls (HostErr HostError.kInsufficientSecurity)
                         (with_state State.kFailed ps)
    /\ status_calls tr
       = [(0%nat, 0x0BAD, HostErr HostError.kInsufficientSecurity);
          (1%nat, 0x0BAD, HostErr HostError.kInsufficientSecurity);
          (2%nat, 0x0BAD, HostErr HostError.kInsufficientSecurity)].
Proof.
  cbn zeta.
  apply (OnLinkKeyNotification_rejects_mismatched_key
           (constants := core_spec) 0 CoreSpec.kUnauthenticatedCombination192
           (sample_machine State.kWaitLinkKey
                           (Some (sample_pairing [1; 2]%nat))
                           (Some sample_delegate) true)
           (sample_pairing [1; 2]%nat) true).
  - discriminate.
  - reflexivity.
  - reflexivity.
  - reflexivity.
  - discriminate.
Defined.

(** C3 at a concrete machine: an initiator with two callers queued, waiting
    for the authentication to complete, on a link that refuses to start
    encryption. *)
Lemma refused_encryption_leaves_queued_callbacks_waiting_witness :
  let ps := sample_machine State.kInitiatorWaitAuthComplete
                           (Some (sample_pairing [1; 2]%nat))
                           (Some sample_delegate) false in
  let tr := [LinkStartEncryption;
             CallStatus 0%nat 0x0BAD (HostErr HostError.kFailed) ps] in
  EnableEncryption ps = Done tt (with_state State.kFailed ps) tr
  /\ (state_ ps = State.kInitiatorWaitAuthComplete ->
      is_initiator ps = true ->
      OnAuthenticationComplete (constants := core_spec) CoreSpec.kSuccess ps
      = Done tt (with_state State.kFailed ps) tr)
  /\ status_calls tr = [(0%nat, 0x0BAD, HostErr HostError.kFailed)]
  /\ current_pairing_ (with_state State.kFailed ps)
     = Some (sample_pairing [1; 2]%nat).
Proof.
  cbn zeta.
  apply (refused_encryption_leaves_queued_callbacks_waiting
           (constants := core_spec)
           (sample_machine State.kInitiatorWaitAuthComplete
                           (Some (sample_pairing [1; 2]%nat))
                           (Some sample_delegate) false)).
  reflexivity.
Defined.

(** The same defect from a new machine: two callers initiate, the
    authentication completes at once, the link refuses encryption.  Only the
    top-level callback is called; both callers stay queued in [kFailed], and a
    third caller is queued behind them instead of being canceled. *)
Example refused_encryption_run :
  let fresh := SetPairingDelegate (Some sample_delegate)
                 (make_PairingState 1 (sample_link false) 0%nat) in
  exists ps tr,
    (InitiatePairing 1%nat ;; InitiatePairing 2%nat ;;
     OnAuthenticationComplete (constants := core_spec) CoreSpec.kSuccess ;;
     InitiatePairing 3%nat) fresh
    = Done InitiatorAction.kDoNotSendAuthenticationRequest ps tr
    /\ status_calls tr = [(0%nat, 0x0BAD, HostErr HostError.kFailed)]
    /\ state_ ps = State.kFailed
    /\ queued_callbacks ps = [1; 2; 3]%nat.
Proof.
  cbn zeta. eexists. eexists. repeat split.
Qed.

(** C7 at a concrete machine: the pairing one caller initiated, the delegate
    gone since. *)
Lemma OnIoCapabilityRequest_initiator_without_delegate_aborts_witness :
  OnIoCapabilityRequest
    (constants := core_spec)
    (sample_machine State.kInitiatorPairingStarted (Some (MakeInitiator 1%nat))
                    None true)
  = Abort.
Proof.
  apply (OnIoCapabilityRequest_initiator_without_delegate_aborts
           (constants := core_spec)
           (sample_machine State.kInitiatorPairingStarted
                           (Some (MakeInitiator 1%nat)) None true));
    reflexivity.
Defined.

(** That machine is the one a new machine reaches when a caller initiates
    pairing and the delegate goes away before the controller asks for the IO
    capability. *)
Example delegate_reset_run :
  let fresh := SetPairingDelegate (Some sample_delegate)
                 (make_PairingState 1 (sample_link true) 0%nat) in
  (InitiatePairing 1%nat ;; modify (SetPairingDelegate None)) fresh
  = Done tt
         (sample_machine State.kInitiatorPairingStarted
                         (Some (MakeInitiator 1%nat)) None true)
         []
  /\ (InitiatePairing 1%nat ;; modify (SetPairingDelegate None) ;;
      OnIoCapabilityRequest (constants := core_spec)) fresh
     = Abort.
Proof.
  split; reflexivity.
Qed.



Lemma InitiatePairing_without_delegate_witness :
  let ps := sample_machine State.kIdle None None true in
  InitiatePairing 7%nat ps
  = Done InitiatorAction.kDoNotSendAuthenticationRequest ps
         [CallStatus 7%nat 0x0BAD (HostErr HostError.kNotReady) ps].
Proof.
  cbn zeta.
  apply (InitiatePairing_without_delegate
           7%nat (sample_machine State.kIdle None None true)).
  reflexivity.
Defined.

Lemma unexpected_user_request_is_answered_negatively_witness :
  let ps := sample_machine State.kWaitPairingComplete
                           (Some (sample_pairing [1; 2]%nat))
                           (Some sample_delegate) true in
  let failed := with_state State.kFailed ps in
  OnUserConfirmationRequest 123456 5%nat ps
  = Done tt (with_pairing None failed)
         (signal_calls (HostErr HostError.kNotSupported) failed
          ++ [ReplyUserConfirmation 5%nat false])
  /\ OnUserPasskeyRequest 6%nat ps
     = Done tt (with_pairing None failed)
            (signal_calls (HostErr HostError.kNotSupported) failed
             ++ [ReplyUserPasskey 6%nat None]).
Proof.
  cbn zeta.
  destruct (unexpected_user_request_is_answered_negatively
              (sample_machine State.kWaitPairingComplete
                              (Some (sample_pairing [1; 2]%nat))
                              (Some sample_delegate) true))
    as (Hconfirm & Hpasskey).
  split; [apply Hconfirm | apply Hpasskey]; discriminate.
Defined.

Lemma OnEncryptionChange_transitions_witness :
  let waiting := sample_machine State.kWaitEncryption
                                (Some (sample_pairing [1; 2]%nat))
                                (Some sample_delegate) true in
  let idle := sample_machine State.kIdle None (Some sample_delegate) true in
  let refused := ProtocolError CoreSpec.kAuthenticationFailure in
  OnEncryptionChange Success true waiting
  = Done tt (with_pairing None (with_state State.kIdle waiting))
         (signal_calls Success (with_state State.kIdle waiting))
  /\ OnEncryptionChange Success false waiting
     = Done tt (with_pairing None (with_state State.kFailed waiting))
            (signal_calls (HostErr HostError.kFailed)
                          (with_state State.kFailed waiting))
  /\ OnEncryptionChange refused true waiting
     = Done tt (with_pairing None (with_state State.kFailed waiting))
            (signal_calls refused (with_state State.kFailed waiting))
  /\ OnEncryptionChange refused true idle = Done tt idle [].
Proof.
  cbn zeta.
  destruct (OnEncryptionChange_transitions
              Success true
              (sample_machine State.kWaitEncryption
                              (Some (sample_pairing [1; 2]%nat))
                              (Some sample_delegate) true))
    as (Hok & Hoff & _ & _).
  destruct (OnEncryptionChange_transitions
              (ProtocolError CoreSpec.kAuthenticationFailure) true
              (sample_machine State.kWaitEncryption
                              (Some (sample_pairing [1; 2]%nat))
                              (Some sample_delegate) true))
    as (_ & _ & Herr & _).
  destruct (OnEncryptionChange_transitions
              (ProtocolError CoreSpec.kAuthenticationFailure) true
              (sample_machine State.kIdle None (Some sample_delegate) true))
    as (_ & _ & _ & Hignored).
  split; [| split; [| split]].
  - apply Hok; reflexivity.
  - apply Hoff; reflexivity.
  - apply Herr; reflexivity.
  - apply Hignored. discriminate.
Defined.

(** ** The further properties on concrete inputs *)

Lemma expected_events_of_the_two_devices_match_witness :
  GetExpectedEvent (constants := core_spec)
                   IOCapability.kKeyboardOnly IOCapability.kDisplayYesNo
  = CoreSpec.kUserPasskeyRequestEventCode.
Proof.
  assert (Hd : event_codes_distinct (constants := core_spec))
    by (repeat split; discriminate).
  destruct (expected_events_of_the_two_devices_match
              (constants := core_spec)
              IOCapability.kDisplayYesNo IOCapability.kKeyboardOnly Hd)
    as [Hnotified _].
  apply Hnotified. reflexivity.
Defined.

Lemma authenticated_pairing_uses_a_passkey_witness :
  GetInitiatorPairingAction IOCapability.kKeyboardOnly IOCapability.kDisplayYesNo
  = PairingAction.kDisplayPasskey
  \/ GetInitiatorPairingAction IOCapability.kKeyboardOnly
                               IOCapability.kDisplayYesNo
     = PairingAction.kComparePasskey
  \/ GetInitiatorPairingAction IOCapability.kKeyboardOnly
                               IOCapability.kDisplayYesNo
     = PairingAction.kRequestPasskey.
Proof.
  apply (authenticated_pairing_uses_a_passkey
           true IOCapability.kKeyboardOnly IOCapability.kDisplayYesNo).
  reflexivity.
Defined.

Lemma responder_requires_mitm_only_if_both_initiators_would_witness :
  GetInitiatorAuthRequirements IOCapability.kDisplayYesNo
  = AuthRequirements.kMITMGeneralBonding
  /\ GetInitiatorAuthRequirements IOCapability.kKeyboardOnly
     = AuthRequirements.kMITMGeneralBonding
  /\ IsPairingAuthenticated IOCapability.kKeyboardOnly
                            IOCapability.kDisplayYesNo = true.
Proof.
  apply (responder_requires_mitm_only_if_both_initiators_would
           IOCapability.kKeyboardOnly IOCapability.kDisplayYesNo).
  reflexivity.
Defined.

Lemma ToString_injective_witness :
  State.kWaitLinkKey = State.kWaitLinkKey.
Proof.
  apply (proj2 (ToString_injective State.kWaitLinkKey State.kWaitLinkKey)).
  reflexivity.
Defined.

Lemma OnLinkKeyNotification_rejects_key_without_security_witness :
  let ps := sample_machine State.kWaitLinkKey
                           (Some (sample_pairing [1; 2]%nat))
                           (Some sample_delegate) true in
  OnLinkKeyNotification (constants := core_spec) 42 0 ps
  = Done tt (with_pairing None (with_state State.kFailed ps))
         (signal_calls (HostErr HostError.kInsufficientSecurity)
                       (with_state State.kFailed ps)).
Proof.
  cbn zeta.
  apply (OnLinkKeyNotification_rejects_key_without_security
           (constants := core_spec) 42 0
           (sample_machine State.kWaitLinkKey
                           (Some (sample_pairing [1; 2]%nat))
                           (Some sample_delegate) true)
           (sample_pairing [1; 2]%nat)).
  - discriminate.
  - reflexivity.
  - reflexivity.
  - reflexivity.
Defined.

Lemma OnLinkKeyNotification_changed_combination_when_idle_witness :
  let ps := sample_machine State.kIdle None (Some sample_delegate) true in
  OnLinkKeyNotification (constants := core_spec) 42
                        CoreSpec.kChangedCombination ps
  = Done tt (with_pairing None (with_state State.kFailed ps))
         (signal_calls (HostErr HostError.kInsufficientSecurity)
                       (with_state State.kFailed ps)).
Proof.
  cbn zeta.
  destruct (OnLinkKeyNotification_changed_combination_when_idle
              (constants := core_spec) 42
              (sample_machine State.kIdle None (Some sample_delegate) true))
    as [_ Hnokey].
  - discriminate.
  - reflexivity.
  - apply Hnokey. reflexivity.
Defined.

Lemma OnLinkKeyNotification_accepts_matching_key_witness :
  let ps := sample_machine State.kWaitLinkKey
                           (Some (sample_pairing [1; 2]%nat))
                           (Some sample_delegate) true in
  let key_type := CoreSpec.kAuthenticatedCombination192 in
  OnLinkKeyNotification (constants := core_spec) 42 key_type ps
  = Done tt
         (with_state State.kInitiatorWaitAuthComplete
            (with_link
               (hci.set_bredr_link_key
                  {| hci.value := 42; hci.rand := 0; hci.ediv := 0 |}
                  key_type (link_ ps))
               (with_pairing
                  (Some (with_security_properties
                           (CoreSpec.SecurityPropertiesOf key_type)
                           (sample_pairing [1; 2]%nat)))
                  ps)))
         [].
Proof.
  cbn zeta.
  destruct (OnLinkKeyNotification_accepts_matching_key
              (constants := core_spec) 42 CoreSpec.kAuthenticatedCombination192
              (sample_machine State.kWaitLinkKey
                              (Some (sample_pairing [1; 2]%nat))
                              (Some sample_delegate) true)
              (sample_pairing [1; 2]%nat))
    as [Hinitiator _].
  - discriminate.
  - reflexivity.
  - reflexivity.
  - discriminate.
  - reflexivity.
  - apply Hinitiator. reflexivity.
Defined.

Lemma OnSimplePairingComplete_transitions_witness :
  let ps := sample_machine State.kWaitPairingComplete
                           (Some (sample_pairing [1; 2]%nat))
                           (Some sample_delegate) true in
  OnSimplePairingComplete (constants := core_spec)
                          CoreSpec.kAuthenticationFailure ps
  = Done tt (with_pairing None (with_state State.kFailed ps))
         ([DelegateCompletePairing 1 (HostErr HostError.kFailed)]
          ++ signal_calls (ProtocolError CoreSpec.kAuthenticationFailure)
                          (with_state State.kFailed ps))
  /\ OnSimplePairingComplete (constants := core_spec) CoreSpec.kSuccess ps
     = Done tt (with_state State.kWaitLinkKey ps)
            [DelegateCompletePairing 1 Success].
Proof.
  cbn zeta.
  destruct (OnSimplePairingComplete_transitions
              (constants := core_spec) CoreSpec.kAuthenticationFailure
              (sample_machine State.kWaitPairingComplete
                              (Some (sample_pairing [1; 2]%nat))
                              (Some sample_delegate) true)
              (sample_pairing [1; 2]%nat))
    as [Hfailure Hsuccess].
  - reflexivity.
  - reflexivity.
  - split; [apply Hfailure; discriminate | apply Hsuccess; reflexivity].
Defined.

Lemma OnAuthenticationComplete_transitions_witness :
  let ps := sample_machine State.kInitiatorWaitAuthComplete
                           (Some (sample_pairing [1; 2]%nat))
                           (Some sample_delegate) true in
  OnAuthenticationComplete (constants := core_spec)
                           CoreSpec.kAuthenticationFailure ps
  = Done tt (with_pairing None (with_state State.kFailed ps))
         (signal_calls (ProtocolError CoreSpec.kAuthenticationFailure)
                       (with_state State.kFailed ps))
  /\ OnAuthenticationComplete (constants := core_spec) CoreSpec.kSuccess ps
     = Done tt (with_state State.kWaitEncryption ps) [LinkStartEncryption].
Proof.
  cbn zeta.
  destruct (OnAuthenticationComplete_transitions
              (constants := core_spec) CoreSpec.kAuthenticationFailure
              (sample_machine State.kInitiatorWaitAuthComplete
                              (Some (sample_pairing [1; 2]%nat))
                              (Some sample_delegate) true))
    as [Hfailure Hsuccess].
  - right. reflexivity.
  - reflexivity.
  - split; [apply Hfailure; discriminate | apply Hsuccess; reflexivity].
Defined.

Lemma OnUserConfirmationRequest_routes_by_action_witness :
  let ps := sample_machine State.kWaitUserConfirmationRequest
                           (Some (sample_pairing [1; 2]%nat))
                           (Some sample_delegate) true in
  OnUserConfirmationRequest 123456 5%nat ps
  = Done tt (with_state State.kWaitPairingComplete ps)
         [DelegateDisplayPasskey 1 123456 DisplayMethod.kComparison
                                 (ConfirmThenReply 5%nat)].
Proof.
  cbn zeta.
  apply (OnUserConfirmationRequest_routes_by_action
           123456 5%nat
           (sample_machine State.kWaitUserConfirmationRequest
                           (Some (sample_pairing [1; 2]%nat))
                           (Some sample_delegate) true)
           (sample_pairing [1; 2]%nat) PairingAction.kDisplayPasskey).
  - reflexivity.
  - reflexivity.
  - reflexivity.
  - reflexivity.
  - discriminate.
Defined.

Lemma passkey_events_are_handed_to_the_delegate_witness :
  let ps := sample_machine State.kWaitUserPasskeyRequest
                           (Some (sample_keyboard_pairing [1; 2]%nat))
                           (Some sample_delegate) true in
  OnUserPasskeyRequest 6%nat ps
  = Done tt (with_state State.kWaitPairingComplete ps)
         [DelegateRequestPasskey 1 (PasskeyThenReply 6%nat)].
Proof.
  cbn zeta.
  destruct (passkey_events_are_handed_to_the_delegate
              (sample_machine State.kWaitUserPasskeyRequest
                              (Some (sample_keyboard_pairing [1; 2]%nat))
                              (Some sample_delegate) true)
              (sample_keyboard_pairing [1; 2]%nat))
    as [Hrequest _].
  - reflexivity.
  - reflexivity.
  - apply Hrequest; reflexivity.
Defined.

Lemma delegate_answers_are_forwarded_while_the_pairing_lives_witness :
  run_passkey_cb (PasskeyThenReply 6%nat) true 123456
  = [ReplyUserPasskey 6%nat (Some 123456)]
  /\ run_passkey_cb (PasskeyThenReply 6%nat) true (-1)
     = [ReplyUserPasskey 6%nat None].
Proof.
  split.
  - destruct (delegate_answers_are_forwarded_while_the_pairing_lives
                5%nat 6%nat true 123456) as (_ & _ & _ & Hfits & _).
    apply Hfits. split; [discriminate | reflexivity].
  - destruct (delegate_answers_are_forwarded_while_the_pairing_lives
                5%nat 6%nat true (-1)) as (_ & _ & _ & _ & Hnegative).
    apply Hnegative. reflexivity.
Defined.

Lemma InitiatePairing_sends_exactly_from_idle_witness :
  (InitiatorAction.kSendAuthenticationRequest
   = InitiatorAction.kSendAuthenticationRequest
   <-> has_delegate sample_fresh = true /\ state_ sample_fresh = State.kIdle)
  /\ (InitiatorAction.kSendAuthenticationRequest
      = InitiatorAction.kSendAuthenticationRequest ->
      with_state State.kInitiatorPairingStarted
        (with_pairing (Some (MakeInitiator 1%nat)) sample_fresh)
      = with_state State.kInitiatorPairingStarted
          (with_pairing (Some (MakeInitiator 1%nat)) sample_fresh)
      /\ @nil Effect = []).
Proof.
  apply (InitiatePairing_sends_exactly_from_idle
           1%nat sample_fresh
           (with_state State.kInitiatorPairingStarted
              (with_pairing (Some (MakeInitiator 1%nat)) sample_fresh))
           InitiatorAction.kSendAuthenticationRequest []).
  reflexivity.
Defined.

Lemma initiator_capability_exchange_witness :
  let ps := sample_machine State.kInitiatorPairingStarted
                           (Some (MakeInitiator 1%nat))
                           (Some sample_delegate) true in
  exists ps1 ps2 p2,
    OnIoCapabilityRequest (constants := core_spec) ps
    = Done (Some IOCapability.kDisplayYesNo) ps1 []
    /\ state_ ps1 = State.kInitiatorWaitIoCapResponse
    /\ OnIoCapabilityResponse (constants := core_spec)
                              IOCapability.kKeyboardOnly ps1
       = Done tt ps2 []
    /\ state_ ps2 = State.kWaitUserPasskeyNotification
    /\ current_pairing_ ps2 = Some p2
    /\ initiator p2 = true
    /\ initiator_callbacks p2 = [1%nat]
    /\ action p2 = Some PairingAction.kDisplayPasskey
    /\ expected_event p2 = Some CoreSpec.kUserPasskeyNotificationEventCode
    /\ authenticated p2 = Some true.
Proof.
  cbn zeta.
  apply (initiator_capability_exchange
           (constants := core_spec) IOCapability.kKeyboardOnly
           (sample_machine State.kInitiatorPairingStarted
                           (Some (MakeInitiator 1%nat))
                           (Some sample_delegate) true)
           (MakeInitiator 1%nat) sample_delegate);
    reflexivity.
Defined.

Lemma responder_capability_exchange_witness :
  exists ps1 ps2 p2,
    OnIoCapabilityResponse (constants := core_spec)
                           IOCapability.kKeyboardOnly sample_fresh
    = Done tt ps1 []
    /\ state_ ps1 = State.kResponderWaitIoCapRequest
    /\ current_pairing_ ps1 = Some (MakeResponder IOCapability.kKeyboardOnly)
    /\ OnIoCapabilityRequest (constants := core_spec) ps1
       = Done (Some IOCapability.kDisplayYesNo) ps2 []
    /\ state_ ps2 = State.kWaitUserPasskeyNotification
    /\ current_pairing_ ps2 = Some p2
    /\ initiator p2 = false
    /\ initiator_callbacks p2 = []
    /\ action p2 = Some PairingAction.kDisplayPasskey
    /\ expected_event p2 = Some CoreSpec.kUserPasskeyNotificationEventCode
    /\ authenticated p2 = Some true.
Proof.
  apply (responder_capability_exchange
           (constants := core_spec) IOCapability.kKeyboardOnly
           sample_fresh sample_delegate);
    reflexivity.
Defined.

Lemma reachable_machine_is_consistent_witness :
  consistent (constants := core_spec)
    (with_state State.kInitiatorPairingStarted
       (with_pairing (Some (MakeInitiator 1%nat)) sample_fresh)).
Proof.
  apply (reachable_machine_is_consistent (constants := core_spec)).
  apply (reachable_deliver (constants := core_spec)
           (InInitiatePairing 1%nat) sample_fresh _ []).
  - apply reachable_delegate, reachable_new.
  - reflexivity.
Defined.

Lemma reachable_machine_aborts_exactly_when_witness :
  deliver (constants := core_spec)
          (InLinkKeyNotification 42 CoreSpec.kDebugCombination) sample_fresh
  = Abort
  <-> aborts (constants := core_spec)
             (InLinkKeyNotification 42 CoreSpec.kDebugCombination)
             sample_fresh
      = true.
Proof.
  apply (reachable_machine_aborts_exactly_when
           (constants := core_spec)
           (InLinkKeyNotification 42 CoreSpec.kDebugCombination) sample_fresh).
  - repeat split; discriminate.
  - apply reachable_delegate, reachable_new.
Defined.

Lemma unexpected_input_fails_with_not_supported_witness :
  let ps := sample_machine State.kWaitLinkKey
                           (Some (sample_pairing [1; 2]%nat))
                           (Some sample_delegate) true in
  exists tr,
    deliver (constants := core_spec) (InUserPasskeyNotification 123456) ps
    = Done tt (with_pairing None (with_state State.kFailed ps)) tr
    /\ status_calls tr
       = map (fun cb => (cb, handle ps, HostErr HostError.kNotSupported))
             (status_callback_ ps :: queued_callbacks ps).
Proof.
  cbn zeta.
  apply (unexpected_input_fails_with_not_supported
           (constants := core_spec) (InUserPasskeyNotification 123456)
           (sample_machine State.kWaitLinkKey
                           (Some (sample_pairing [1; 2]%nat))
                           (Some sample_delegate) true));
    reflexivity.
Defined.

Lemma failed_state_is_never_left_witness :
  let ps := sample_machine State.kFailed None (Some sample_delegate) true in
  state_ ps = State.kFailed.
Proof.
  cbn zeta.
  apply (failed_state_is_never_left
           (constants := core_spec)
           [InIoCapabilityResponse IOCapability.kDisplayYesNo;
            InInitiatePairing 5%nat]
           (sample_machine State.kFailed None (Some sample_delegate) true)
           (sample_machine State.kFailed None (Some sample_delegate) true)
           [CallStatus 0%nat 0x0BAD (HostErr HostError.kNotSupported)
                       (sample_machine State.kFailed None
                                       (Some sample_delegate) true);
            CallStatus 5%nat 0x0BAD (HostErr HostError.kCanceled)
                       (sample_machine State.kFailed None
                                       (Some sample_delegate) true)]);
    reflexivity.
Defined.

Lemma deliver_keeps_the_construction_parameters_witness :
  let ps := sample_machine State.kWaitEncryption
                           (Some (sample_pairing [1; 2]%nat))
                           (Some sample_delegate) true in
  let ps' := with_pairing None (with_state State.kIdle ps) in
  peer_id_ ps' = peer_id_ ps
  /\ status_callback_ ps' = status_callback_ ps
  /\ pairing_delegate_ ps' = pairing_delegate_ ps.
Proof.
  cbn zeta.
  apply (deliver_keeps_the_construction_parameters
           (constants := core_spec) (InEncryptionChange Success true)
           (sample_machine State.kWaitEncryption
                           (Some (sample_pairing [1; 2]%nat))
                           (Some sample_delegate) true)
           _
           (signal_calls Success
              (with_state State.kIdle
                 (sample_machine State.kWaitEncryption
                                 (Some (sample_pairing [1; 2]%nat))
                                 (Some sample_delegate) true)))).
  reflexivity.
Defined.

Lemma link_changes_only_for_an_acceptable_key_witness :
  let ps := sample_machine State.kWaitLinkKey
                           (Some (sample_pairing [1; 2]%nat))
                           (Some sample_delegate) true in
  let stored :=
    hci.set_bredr_link_key
      {| hci.value := 42; hci.rand := 0; hci.ediv := 0 |}
      CoreSpec.kAuthenticatedCombination192 (link_ ps) in
  stored = link_ ps
  \/ exists link_key key_type,
      InLinkKeyNotification 42 CoreSpec.kAuthenticatedCombination192
      = InLinkKeyNotification link_key key_type
      /\ stored
         = hci.set_bredr_link_key
             {| hci.value := link_key; hci.rand := 0; hci.ediv := 0 |}
             key_type (link_ ps)
      /\ ((state_ ps = State.kIdle
           /\ key_type = CoreSpec.kChangedCombination
           /\ hci.ltk (link_ ps) <> None)
          \/ (state_ ps = State.kWaitLinkKey
              /\ sm.level (CoreSpec.SecurityPropertiesOf key_type)
                 <> sm.SecurityLevel.kNoSecurity
              /\ exists p,
                  current_pairing_ ps = Some p
                  /\ authenticated p
                     = Some (sm.authenticated
                               (CoreSpec.SecurityPropertiesOf key_type)))).
Proof.
  cbn zeta.
  apply (link_changes_only_for_an_acceptable_key
           (constants := core_spec)
           (InLinkKeyNotification 42 CoreSpec.kAuthenticatedCombination192)
           (sample_machine State.kWaitLinkKey
                           (Some (sample_pairing [1; 2]%nat))
                           (Some sample_delegate) true)
           (with_state State.kInitiatorWaitAuthComplete
              (with_link
                 (hci.set_bredr_link_key
                    {| hci.value := 42; hci.rand := 0; hci.ediv := 0 |}
                    CoreSpec.kAuthenticatedCombination192
                    (sample_link true))
                 (with_pairing
                    (Some (with_security_properties
                             (CoreSpec.SecurityPropertiesOf
                                CoreSpec.kAuthenticatedCombination192)
                             (sample_pairing [1; 2]%nat)))
                    (sample_machine State.kWaitLinkKey
                                    (Some (sample_pairing [1; 2]%nat))
                                    (Some sample_delegate) true))))
           []).
  reflexivity.
Defined.

Lemma deliver_signals_one_status_witness :
  let ps := sample_machine State.kWaitEncryption
                           (Some (sample_pairing [1; 2]%nat))
                           (Some sample_delegate) true in
  exists status,
    forall cb h s,
      In (cb, h, s)
         (status_calls (signal_calls Success (with_state State.kIdle ps))) ->
      h = handle ps /\ s = status.
Proof.
  cbn zeta.
  apply (deliver_signals_one_status
           (constants := core_spec) (InEncryptionChange Success true)
           (sample_machine State.kWaitEncryption
                           (Some (sample_pairing [1; 2]%nat))
                           (Some sample_delegate) true)
           (with_pairing None
              (with_state State.kIdle
                 (sample_machine State.kWaitEncryption
                                 (Some (sample_pairing [1; 2]%nat))
                                 (Some sample_delegate) true)))).
  reflexivity.
Defined.

Lemma success_is_signaled_only_when_encryption_is_enabled_witness :
  let ps := sample_machine State.kWaitEncryption
                           (Some (sample_pairing [1; 2]%nat))
                           (Some sample_delegate) true in
  let ps' := with_pairing None (with_state State.kIdle ps) in
  state_ ps = State.kWaitEncryption
  /\ state_ ps' = State.kIdle
  /\ current_pairing_ ps' = None
  /\ exists status,
      InEncryptionChange Success true = InEncryptionChange status true
      /\ is_success status = true.
Proof.
  cbn zeta.
  apply (success_is_signaled_only_when_encryption_is_enabled
           (constants := core_spec) (InEncryptionChange Success true)
           (sample_machine State.kWaitEncryption
                           (Some (sample_pairing [1; 2]%nat))
                           (Some sample_delegate) true)
           _
           (signal_calls Success
              (with_state State.kIdle
                 (sample_machine State.kWaitEncryption
                                 (Some (sample_pairing [1; 2]%nat))
                                 (Some sample_delegate) true)))
           2%nat 0x0BAD Success).
  - reflexivity.
  - right. right. left. reflexivity.
  - reflexivity.
Defined.

Lemma pairing_is_created_only_in_idle_witness :
  state_ sample_fresh = State.kIdle
  /\ ((exists status_cb,
          InIoCapabilityResponse IOCapability.kKeyboardOnly
          = InInitiatePairing status_cb
          /\ has_delegate sample_fresh = true
          /\ MakeResponder IOCapability.kKeyboardOnly = MakeInitiator status_cb
          /\ State.kResponderWaitIoCapRequest = State.kInitiatorPairingStarted)
      \/ (exists peer_cap,
             InIoCapabilityResponse IOCapability.kKeyboardOnly
             = InIoCapabilityResponse peer_cap
             /\ MakeResponder IOCapability.kKeyboardOnly
                = MakeResponder peer_cap
             /\ State.kResponderWaitIoCapRequest
                = State.kResponderWaitIoCapRequest)).
Proof.
  apply (pairing_is_created_only_in_idle
           (constants := core_spec)
           (InIoCapabilityResponse IOCapability.kKeyboardOnly) sample_fresh
           (with_state State.kResponderWaitIoCapRequest
              (with_pairing (Some (MakeResponder IOCapability.kKeyboardOnly))
                            sample_fresh))
           [] (MakeResponder IOCapability.kKeyboardOnly));
    reflexivity.
Defined.

Lemma pairing_keeps_its_role_and_queue_witness :
  let ps := sample_machine State.kWaitPairingComplete
                           (Some (sample_pairing [1; 2]%nat))
                           (Some sample_delegate) true in
  initiator (sample_pairing [1; 2; 3]%nat) = initiator (sample_pairing [1; 2]%nat)
  /\ initiator_callbacks (sample_pairing [1; 2; 3]%nat)
     = initiator_callbacks (sample_pairing [1; 2]%nat)
       ++ (if has_delegate ps then [3%nat] else []).
Proof.
  cbn zeta.
  apply (pairing_keeps_its_role_and_queue
           (constants := core_spec) (InInitiatePairing 3%nat)
           (sample_machine State.kWaitPairingComplete
                           (Some (sample_pairing [1; 2]%nat))
                           (Some sample_delegate) true)
           (sample_machine State.kWaitPairingComplete
                           (Some (sample_pairing [1; 2; 3]%nat))
                           (Some sample_delegate) true)
           [] (sample_pairing [1; 2]%nat) (sample_pairing [1; 2; 3]%nat));
    reflexivity.
Defined.

Lemma encryption_is_awaited_only_after_the_link_accepted_witness :
  let ps := sample_machine State.kInitiatorWaitAuthComplete
                           (Some (sample_pairing [1; 2]%nat))
                           (Some sample_delegate) true in
  hci.StartEncryption_accepts (link_ ps) = true
  /\ [LinkStartEncryption] = [LinkStartEncryption]
  /\ is_pairing (with_state State.kWaitEncryption ps) = true
  /\ (InAuthenticationComplete CoreSpec.kSuccess
      = InAuthenticationComplete CoreSpec.kSuccess
      \/ exists link_key key_type,
          InAuthenticationComplete CoreSpec.kSuccess
          = InLinkKeyNotification link_key key_type).
Proof.
  cbn zeta.
  apply (encryption_is_awaited_only_after_the_link_accepted
           (constants := core_spec)
           (InAuthenticationComplete CoreSpec.kSuccess)
           (sample_machine State.kInitiatorWaitAuthComplete
                           (Some (sample_pairing [1; 2]%nat))
                           (Some sample_delegate) true)
           (with_state State.kWaitEncryption
              (sample_machine State.kInitiatorWaitAuthComplete
                              (Some (sample_pairing [1; 2]%nat))
                              (Some sample_delegate) true))
           [LinkStartEncryption]).
  - discriminate.
  - reflexivity.
  - reflexivity.
Defined.

Lemma responder_without_delegate_declines_the_pairing_witness :
  let ps := sample_machine State.kResponderWaitIoCapRequest
                           (Some (MakeResponder IOCapability.kKeyboardOnly))
                           None true in
  exists ps' tr,
    OnIoCapabilityRequest (constants := core_spec) ps = Done None ps' tr
    /\ state_ ps' = State.kIdle
    /\ current_pairing_ ps' = None
    /\ link_ ps' = link_ ps
    /\ status_calls tr = [(0%nat, 0x0BAD, HostErr HostError.kNotReady)].
Proof.
  cbn zeta.
  apply (responder_without_delegate_declines_the_pairing
           (constants := core_spec)
           (sample_machine State.kResponderWaitIoCapRequest
                           (Some (MakeResponder IOCapability.kKeyboardOnly))
                           None true)
           (MakeResponder IOCapability.kKeyboardOnly));
    reflexivity.
Defined.

Lemma InitiatePairing_signals_only_its_caller_witness :
  let ps := sample_machine State.kFailed None (Some sample_delegate) true in
  let tr := [CallStatus 7%nat 0x0BAD (HostErr HostError.kCanceled) ps] in
  tr = []
  \/ (ps = ps
      /\ InitiatorAction.kDoNotSendAuthenticationRequest
         = InitiatorAction.kDoNotSendAuthenticationRequest
      /\ ((has_delegate ps = false
           /\ tr = [CallStatus 7%nat (handle ps)
                               (HostErr HostError.kNotReady) ps])
          \/ (has_delegate ps = true
              /\ state_ ps = State.kFailed
              /\ current_pairing_ ps = None
              /\ tr = [CallStatus 7%nat (handle ps)
                                  (HostErr HostError.kCanceled) ps]))).
Proof.
  cbn zeta.
  apply (InitiatePairing_signals_only_its_caller
           7%nat
           (sample_machine State.kFailed None (Some sample_delegate) true)
           (sample_machine State.kFailed None (Some sample_delegate) true)
           InitiatorAction.kDoNotSendAuthenticationRequest
           [CallStatus 7%nat 0x0BAD (HostErr HostError.kCanceled)
                       (sample_machine State.kFailed None
                                       (Some sample_delegate) true)]).
  reflexivity.
Defined.
